(** * CarbonMarketplace: the Fabric chaincode as a state-passing program

    The contract class [CarbonMarketplace] (nine transaction functions over
    [ctx.stub.getState] / [ctx.stub.putState]) is embedded function by
    function.  The world state is a finite map from key strings to the
    bytes stored under them; every transaction function is a computation
    in a small state-and-exception monad whose result records the writes
    performed so far, also when the function throws.

    What the embedding takes from the JavaScript environment:
    - the arguments of a transaction function are the strings the client
      sent, and every amount goes through [parseInt];
    - numbers are [NaN] or an integer: no operation of the contract
      produces a fraction.  JavaScript computes on IEEE doubles, which are
      exact on the integers of magnitude up to 2^53 - 1; beyond them
      [parseInt] and the arithmetic round, about 310 digits give
      [Infinity], and [toString] writes an exponent from 10^21 on.  The
      embedding computes on all integers exactly, so a statement that
      fixes the value read, stored or written takes the numbers involved
      to be [safe]; a statement about signs, order or [NaN] alone needs no
      such condition;
    - strings are their UTF-8 bytes;
    - [Date.now()], [uuidv4()] and [ctx.clientIdentity.getID()] are read
      from the invocation context;
    - [getState] reads the committed ledger; no transaction function reads
      a key after writing it, so passing the written ledger along is the
      same. *)

From Stdlib Require Import ZArith Lia Ascii String List Bool.
From stdpp Require Import base tactics option strings pretty gmap.

Local Open Scope string_scope.
Local Open Scope Z_scope.

(** ** The JavaScript fragment the contract relies on *)

Module JS.

(** A JavaScript number as the contract can compute it. *)
Inductive Num : Type :=
| NaN
| Int (z : Z).

Definition add (a b : Num) : Num :=
  match a, b with Int x, Int y => Int (x + y) | _, _ => NaN end.

Definition sub (a b : Num) : Num :=
  match a, b with Int x, Int y => Int (x - y) | _, _ => NaN end.

Definition mul (a b : Num) : Num :=
  match a, b with Int x, Int y => Int (x * y) | _, _ => NaN end.

(** Relational operators: every comparison with [NaN] is false. *)
Definition lt (a b : Num) : bool :=
  match a, b with Int x, Int y => x <? y | _, _ => false end.

Definition le (a b : Num) : bool :=
  match a, b with Int x, Int y => x <=? y | _, _ => false end.

Definition gt (a b : Num) : bool := lt b a.

(** [a === 0] *)
Definition isZero (a : Num) : bool :=
  match a with Int x => x =? 0 | NaN => false end.

(** A number as [JSON.parse (JSON.stringify n)] gives it back:
    [JSON.stringify] writes [NaN] as [null]. *)
Inductive JNum : Type :=
| JNull
| JInt (z : Z).

Definition toJSON (n : Num) : JNum :=
  match n with NaN => JNull | Int z => JInt z end.

(** ToNumber on a parsed JSON number: [null] counts as [0] in arithmetic
    and in relational comparisons. *)
Definition ToNumber (j : JNum) : Num :=
  match j with JNull => Int 0 | JInt z => Int z end.

(** *** parseInt *)

Definition code (c : ascii) : Z := Z.of_N (N_of_ascii c).

(** Value of a character as a digit, letters counting from ten. *)
Definition digitValue (c : ascii) : option Z :=
  let n := code c in
  if (48 <=? n) && (n <=? 57) then Some (n - 48)
  else if (97 <=? n) && (n <=? 122) then Some (n - 87)
  else if (65 <=? n) && (n <=? 90) then Some (n - 55)
  else None.

Definition radixDigit (R : Z) (c : ascii) : option Z :=
  match digitValue c with
  | Some d => if d <? R then Some d else None
  | None => None
  end.

(** The one-byte white space and line terminators: TAB, LF, VT, FF, CR, SP. *)
Definition isWhiteSpace (c : ascii) : bool :=
  let n := code c in ((9 <=? n) && (n <=? 13)) || (n =? 32).

(** UTF-8 encodings of the other StrWhiteSpaceChar code points:
    U+00A0; U+1680, U+2000..U+200A, U+2028, U+2029, U+202F, U+205F,
    U+3000, U+FEFF. *)
Definition isWhiteSpace2 (c1 c2 : ascii) : bool :=
  (code c1 =? 194) && (code c2 =? 160).

Definition isWhiteSpace3 (c1 c2 c3 : ascii) : bool :=
  let '(a, b, c) := (code c1, code c2, code c3) in
  ((a =? 225) && (b =? 154) && (c =? 128))
  || ((a =? 226) && (b =? 128)
        && (((128 <=? c) && (c <=? 138)) || (c =? 168) || (c =? 169) || (c =? 175)))
  || ((a =? 226) && (b =? 129) && (c =? 159))
  || ((a =? 227) && (b =? 128) && (c =? 128))
  || ((a =? 239) && (b =? 187) && (c =? 191)).

Fixpoint trimStart (s : string) : string :=
  match s with
  | EmptyString => s
  | String c1 s1 =>
      if isWhiteSpace c1 then trimStart s1
      else match s1 with
           | EmptyString => s
           | String c2 s2 =>
               if isWhiteSpace2 c1 c2 then trimStart s2
               else match s2 with
                    | EmptyString => s
                    | String c3 s3 =>
                        if isWhiteSpace3 c1 c2 c3 then trimStart s3 else s
                    end
           end
  end.

(** The integer written by the longest prefix of radix-[R] digits,
    continuing from [acc]. *)
Fixpoint digitsAcc (R acc : Z) (s : string) : Z :=
  match s with
  | EmptyString => acc
  | String c s' =>
      match radixDigit R c with
      | Some d => digitsAcc R (acc * R + d) s'
      | None => acc
      end
  end.

(** [None] when the text does not start with a digit. *)
Definition digits (R : Z) (s : string) : option Z :=
  match s with
  | EmptyString => None
  | String c _ =>
      match radixDigit R c with
      | Some _ => Some (digitsAcc R 0 s)
      | None => None
      end
  end.

Definition stripSign (s : string) : Z * string :=
  match s with
  | String "-" r => (-1, r)
  | String "+" r => (1, r)
  | _ => (1, s)
  end.

Definition stripPrefix (s : string) : Z * string :=
  match s with
  | String "0" (String "x" r) => (16, r)
  | String "0" (String "X" r) => (16, r)
  | _ => (10, s)
  end.

(** [parseInt(string)] with no radix argument. *)
Definition parseInt (input : string) : Num :=
  let '(sign, unsigned) := stripSign (trimStart input) in
  let '(R, body) := stripPrefix unsigned in
  match digits R body with
  | None => NaN
  | Some mathInt => Int (sign * mathInt)
  end.

(** [n.toString()], also the text [string + n] appends. *)
Definition toString (n : Num) : string :=
  match n with
  | NaN => "NaN"
  | Int z => pretty z
  end.

End JS.

Import JS.

(** ** Records of the world state

    Each record is the object the contract passes to [JSON.stringify];
    a numeric field holds what [JSON.parse] reads back. *)

Record GovernmentDetails : Type := {
  governmentAddress : string;
  governmentName : string;
  country : string;
  deptName : string;
}.

Record Proposal : Type := {
  proposal_id : string;
  proposer : string;
  projectDescription : string;
  carbonReductionTarget : JNum;
  approved : bool;
  allocatedCredits : JNum;
}.

Record Auction : Type := {
  auction_id : string;
  totalCredits : JNum;
  startingBid : JNum;
  highestBid : JNum;
  highestBidder : string;
  endTime : JNum;
  ended : bool;
}.

Record Sale : Type := {
  sale_id : string;
  creditsForSale : JNum;
  pricePerCredit : JNum;
  seller : string;
  sold : bool;
}.

(** The bytes under a key: [Buffer.from(JSON.stringify(record))] for the
    four records, [Buffer.from(text)] for everything else the contract
    writes (a number's [toString()], or an identity followed by one).
    A [Text] is never the JSON text of an object. *)
Inductive Bytes : Type :=
| JSON_governmentDetails (g : GovernmentDetails)
| JSON_proposal (p : Proposal)
| JSON_auction (a : Auction)
| JSON_sale (s : Sale)
| Text (t : string).

Abbreviation Ledger := (gmap string Bytes).

(** The errors of the spec, one per [throw new Error(...)] message:
    - [NotFound]: '... does not exist' (approveProject, issueCarbonCredits,
      placeBid, endAuction, buyCredits);
    - [AlreadyApproved]: 'Project ... already approved';
    - [NotApproved]: 'Project ... is not approved';
    - [AuctionEnded]: 'Auction ... has ended';
    - [BidTooLow]: 'Bid too low';
    - [StillOngoing]: 'Auction ... is still ongoing';
    - [AlreadyEnded]: 'Auction ... already ended';
    - [InsufficientCredits]: 'Insufficient credits to sell';
    - [AlreadySold]: 'Sale ... already completed'.
    [NotARecord] stands for the exception raised when the bytes under a
    record key are not a record of that kind: for a [Text], [JSON.parse]
    throws a SyntaxError or yields a primitive, and the function then
    throws at its first property assignment (strict mode), or at its
    approval test in issueCarbonCredits; always before any [putState]. *)
Inductive Error : Type :=
| NotFound
| AlreadyApproved
| NotApproved
| AuctionEnded
| BidTooLow
| StillOngoing
| AlreadyEnded
| InsufficientCredits
| AlreadySold
| NotARecord.

(** ** Transactions: state passing with exceptions

    An outcome keeps the ledger as written so far in both cases, so that
    the writes made before a [throw] stay visible to the proofs. *)

Inductive Outcome (A : Type) : Type :=
| Returned (a : A) (l : Ledger)
| Threw (e : Error) (l : Ledger).

Arguments Returned {A} a l.
Arguments Threw {A} e l.

Definition Tx (A : Type) : Type := Ledger -> Outcome A.

Definition ret {A : Type} (a : A) : Tx A := fun l => Returned a l.

Definition bind {A B : Type} (m : Tx A) (k : A -> Tx B) : Tx B :=
  fun l =>
    match m l with
    | Returned a l' => k a l'
    | Threw e l' => Threw e l'
    end.

Definition throw {A : Type} (e : Error) : Tx A := fun l => Threw e l.

Definition getState (key : string) : Tx (option Bytes) :=
  fun l => Returned (l !! key) l.

Definition putState (key : string) (value : Bytes) : Tx unit :=
  fun l => Returned tt (<[key := value]> l).

Declare Scope tx_scope.
Delimit Scope tx_scope with tx.
Bind Scope tx_scope with Tx.

Notation "x <- m ;; k" := (bind m (fun x => k))
  (at level 100, m at next level, k at level 200, right associativity) : tx_scope.
Notation "m ;; k" := (bind m (fun _ => k))
  (at level 100, k at level 200, right associativity) : tx_scope.

Local Open Scope tx_scope.

(** What a transaction function reads from its [ctx] and from the
    JavaScript runtime during one invocation. *)
Record Context : Type := {
  clientIdentity_getID : string;
  Date_now : Z;
  uuidv4 : string;
}.

(** [!bytes || bytes.length === 0] *)
Definition isEmpty (bytes : option Bytes) : bool :=
  match bytes with
  | None => true
  | Some (Text "") => true
  | Some _ => false
  end.

(** [parseInt(bytes.toString())]: the JSON text of a record opens with a
    brace, which [parseInt] reads as [NaN]. *)
Definition parseIntBytes (bytes : Bytes) : Num :=
  match bytes with
  | Text t => parseInt t
  | _ => NaN
  end.

(** The block shared by issueCarbonCredits, endAuction, createSale and
    buyCredits:
      let existingCredits = 0;
      if (bytes && bytes.length > 0) existingCredits = parseInt(bytes.toString()); *)
Definition existingCreditsOf (bytes : option Bytes) : Num :=
  match bytes with
  | Some b => if isEmpty bytes then Int 0 else parseIntBytes b
  | None => Int 0
  end.

(** [JSON.parse(bytes.toString())] used as a record of each kind. *)
Definition parseProposal (bytes : option Bytes) : Tx Proposal :=
  match bytes with
  | Some (JSON_proposal p) => ret p
  | _ => throw NotARecord
  end.

Definition parseAuction (bytes : option Bytes) : Tx Auction :=
  match bytes with
  | Some (JSON_auction a) => ret a
  | _ => throw NotARecord
  end.

Definition parseSale (bytes : option Bytes) : Tx Sale :=
  match bytes with
  | Some (JSON_sale s) => ret s
  | _ => throw NotARecord
  end.

(** The keys are single-quoted strings in the source, so the dollar-brace
    placeholder is not substituted: every proposal, every auction and
    every sale goes under one fixed key, whatever the id. *)
Definition proposalKey (proposalId : string) : string := "proposal_${proposalId}".
Definition auctionKey (auctionId : string) : string := "auction_${auctionId}".
Definition saleKey (saleId : string) : string := "sale_${saleId}".

(** ** The transaction functions of [CarbonMarketplace] *)

Definition initLedger (ctx : Context) (governmentName country deptName : string)
  : Tx unit :=
  let governmentDetails := {|
    governmentAddress := clientIdentity_getID ctx;
    governmentName := governmentName;
    country := country;
    deptName := deptName |} in
  putState "governmentDetails" (JSON_governmentDetails governmentDetails).

Definition submitProposal (ctx : Context)
    (projectDescription carbonReductionTarget : string) : Tx string :=
  let proposer := clientIdentity_getID ctx in
  let proposalId := uuidv4 ctx in
  let projectProposal := {|
    proposal_id := proposalId;
    proposer := proposer;
    projectDescription := projectDescription;
    carbonReductionTarget := toJSON (parseInt carbonReductionTarget);
    approved := false;
    allocatedCredits := JInt 0 |} in
  putState (proposalKey proposalId) (JSON_proposal projectProposal) ;;
  ret "Project proposal ${proposalId} submitted by ${proposer}".

Definition approveProject (ctx : Context) (proposalId allocatedCredits : string)
  : Tx string :=
  proposalAsBytes <- getState (proposalKey proposalId) ;;
  if isEmpty proposalAsBytes then throw NotFound else
  proposal <- parseProposal proposalAsBytes ;;
  if approved proposal then throw AlreadyApproved else
  let proposal := {|
    proposal_id := proposal_id proposal;
    proposer := proposer proposal;
    projectDescription := projectDescription proposal;
    carbonReductionTarget := carbonReductionTarget proposal;
    approved := true;
    allocatedCredits := toJSON (parseInt allocatedCredits) |} in
  putState (proposalKey proposalId) (JSON_proposal proposal) ;;
  ret "Project ${proposalId} approved with ${allocatedCredits} carbon credits allocated".

Definition issueCarbonCredits (ctx : Context) (proposalId : string) : Tx string :=
  proposalAsBytes <- getState (proposalKey proposalId) ;;
  if isEmpty proposalAsBytes then throw NotFound else
  proposal <- parseProposal proposalAsBytes ;;
  if negb (approved proposal) then throw NotApproved else
  let proposer := proposer proposal in
  let creditsToIssue := allocatedCredits proposal in
  existingCreditsAsBytes <- getState proposer ;;
  let existingCredits := existingCreditsOf existingCreditsAsBytes in
  let updatedCredits := add existingCredits (ToNumber creditsToIssue) in
  putState proposer (Text (toString updatedCredits)) ;;
  ret "Issued ${creditsToIssue} carbon credits to ${proposer}".

Definition createAuction (ctx : Context)
    (totalCredits startingBid auctionDuration : string) : Tx string :=
  let auctionId := uuidv4 ctx in
  let auctionEndTime :=
    add (Int (Date_now ctx)) (mul (parseInt auctionDuration) (Int 1000)) in
  let auction := {|
    auction_id := auctionId;
    totalCredits := toJSON (parseInt totalCredits);
    startingBid := toJSON (parseInt startingBid);
    highestBid := JInt 0;
    highestBidder := "";
    endTime := toJSON auctionEndTime;
    ended := false |} in
  putState (auctionKey auctionId) (JSON_auction auction) ;;
  ret "Auction ${auctionId} created".

Definition placeBid (ctx : Context) (auctionId bidAmount : string) : Tx string :=
  auctionAsBytes <- getState (auctionKey auctionId) ;;
  if isEmpty auctionAsBytes then throw NotFound else
  auction <- parseAuction auctionAsBytes ;;
  if gt (Int (Date_now ctx)) (ToNumber (endTime auction)) then throw AuctionEnded else
  let bidAmountInt := parseInt bidAmount in
  if le bidAmountInt (ToNumber (highestBid auction))
     || lt bidAmountInt (ToNumber (startingBid auction))
  then throw BidTooLow else
  let auction := {|
    auction_id := auction_id auction;
    totalCredits := totalCredits auction;
    startingBid := startingBid auction;
    highestBid := toJSON bidAmountInt;
    highestBidder := clientIdentity_getID ctx;
    endTime := endTime auction;
    ended := ended auction |} in
  putState (auctionKey auctionId) (JSON_auction auction) ;;
  ret "Bid of ${bidAmountInt} placed for auction ${auctionId}".

(** [auction.ended = true] changes the parsed object only: the function
    has no [putState] for the auction key. *)
Definition endAuction (ctx : Context) (auctionId : string) : Tx string :=
  auctionAsBytes <- getState (auctionKey auctionId) ;;
  if isEmpty auctionAsBytes then throw NotFound else
  auction <- parseAuction auctionAsBytes ;;
  if lt (Int (Date_now ctx)) (ToNumber (endTime auction)) then throw StillOngoing else
  if ended auction then throw AlreadyEnded else
  let highestBidder := highestBidder auction in
  let creditsToTransfer := totalCredits auction in
  existingCreditsAsBytes <- getState highestBidder ;;
  let existingCredits := existingCreditsOf existingCreditsAsBytes in
  let updatedCredits := add existingCredits (ToNumber creditsToTransfer) in
  putState highestBidder (Text (toString updatedCredits)) ;;
  ret "Auction ${auctionId} ended. ${creditsToTransfer} carbon credits transferred to ${highestBidder}".

Definition createSale (ctx : Context) (creditsForSale pricePerCredit : string)
  : Tx string :=
  let saleId := uuidv4 ctx in
  let seller := clientIdentity_getID ctx in
  existingCreditsAsBytes <- getState seller ;;
  let existingCredits := existingCreditsOf existingCreditsAsBytes in
  if lt existingCredits (parseInt creditsForSale) then throw InsufficientCredits else
  let sale := {|
    sale_id := saleId;
    creditsForSale := toJSON (parseInt creditsForSale);
    pricePerCredit := toJSON (parseInt pricePerCredit);
    seller := seller;
    sold := false |} in
  putState (saleKey saleId) (JSON_sale sale) ;;
  ret "Sale ${saleId} created by ${seller}".

(** The second [putState] writes [sale.seller + totalCost]: a string plus
    a number, that is the seller's identity followed by the decimal text
    of [totalCost]. *)
Definition buyCredits (ctx : Context) (saleId creditsToBuy : string) : Tx string :=
  saleAsBytes <- getState (saleKey saleId) ;;
  if isEmpty saleAsBytes then throw NotFound else
  sale <- parseSale saleAsBytes ;;
  if sold sale then throw AlreadySold else
  let buyer := clientIdentity_getID ctx in
  let creditsToBuyInt := parseInt creditsToBuy in
  let totalCost := mul creditsToBuyInt (ToNumber (pricePerCredit sale)) in
  buyerCreditsAsBytes <- getState buyer ;;
  let buyerCredits := existingCreditsOf buyerCreditsAsBytes in
  let remaining := sub (ToNumber (creditsForSale sale)) creditsToBuyInt in
  putState buyer (Text (toString (add buyerCredits creditsToBuyInt))) ;;
  putState (seller sale) (Text (seller sale +:+ toString totalCost)) ;;
  let sale := {|
    sale_id := sale_id sale;
    creditsForSale := toJSON remaining;
    pricePerCredit := pricePerCredit sale;
    seller := seller sale;
    sold := if isZero remaining then true else sold sale |} in
  putState (saleKey saleId) (JSON_sale sale) ;;
  ret "${creditsToBuyInt} credits bought from sale ${saleId} by ${buyer}".

(** ** Invocations and their commit

    The dispatcher of the contract API: one constructor per transaction
    function, with the string arguments the client sends. *)
Inductive Invocation : Type :=
| InitLedger (governmentName country deptName : string)
| SubmitProposal (projectDescription carbonReductionTarget : string)
| ApproveProject (proposalId allocatedCredits : string)
| IssueCarbonCredits (proposalId : string)
| CreateAuction (totalCredits startingBid auctionDuration : string)
| PlaceBid (auctionId bidAmount : string)
| EndAuction (auctionId : string)
| CreateSale (creditsForSale pricePerCredit : string)
| BuyCredits (saleId creditsToBuy : string).

Definition invoke (ctx : Context) (f : Invocation) : Tx string :=
  match f with
  | InitLedger governmentName country deptName =>
      initLedger ctx governmentName country deptName ;; ret ""
  | SubmitProposal projectDescription carbonReductionTarget =>
      submitProposal ctx projectDescription carbonReductionTarget
  | ApproveProject proposalId allocatedCredits =>
      approveProject ctx proposalId allocatedCredits
  | IssueCarbonCredits proposalId => issueCarbonCredits ctx proposalId
  | CreateAuction totalCredits startingBid auctionDuration =>
      createAuction ctx totalCredits startingBid auctionDuration
  | PlaceBid auctionId bidAmount => placeBid ctx auctionId bidAmount
  | EndAuction auctionId => endAuction ctx auctionId
  | CreateSale creditsForSale pricePerCredit =>
      createSale ctx creditsForSale pricePerCredit
  | BuyCredits saleId creditsToBuy => buyCredits ctx saleId creditsToBuy
  end.

(** The ledger after an invocation: its writes when it returns, the
    ledger as it was when it throws (the transaction is discarded). *)
Definition commit (ctx : Context) (f : Invocation) (l : Ledger) : Ledger :=
  match invoke ctx f l with
  | Returned _ l' => l'
  | Threw _ _ => l
  end.

Fixpoint run (txs : list (Context * Invocation)) (l : Ledger) : Ledger :=
  match txs with
  | [] => l
  | (ctx, f) :: rest => run rest (commit ctx f l)
  end.

(** The error an outcome carries, if any. *)
Definition thrown {A : Type} (o : Outcome A) : option Error :=
  match o with
  | Returned _ _ => None
  | Threw e _ => Some e
  end.

(** The CreditBalance of an identity, as every transaction function
    reads it. *)
Definition balanceOf (l : Ledger) (identity : string) : Num :=
  existingCreditsOf (l !! identity).

Definition isNegative (n : Num) : bool := lt n (Int 0).

Definition isInteger (n : Num) : bool :=
  match n with Int _ => true | NaN => false end.

(** [Number.MAX_SAFE_INTEGER], that is 2^53 - 1 *)
Definition MAX_SAFE_INTEGER : Z := 9007199254740991.

(** The numbers on which the embedding and JavaScript agree digit for
    digit: [NaN], and the integers from [- MAX_SAFE_INTEGER] to
    [MAX_SAFE_INTEGER], which [parseInt] reads, the arithmetic yields,
    [JSON.stringify] stores and [toString] writes without rounding. *)
Definition safe (n : Num) : bool :=
  match n with
  | NaN => true
  | Int z => (- MAX_SAFE_INTEGER <=? z) && (z <=? MAX_SAFE_INTEGER)
  end.

(** A balance, an amount added to it and their sum are safe. *)
Definition safeCredit (balance amount : Num) : bool :=
  safe balance && safe amount && safe (add balance amount).

(** Every number a purchase of [amount] from the sale [s] reads or
    computes is safe: the buyer's balance and its sum with the amount,
    the price and the total cost, the credits for sale and what is left
    of them. *)
Definition safePurchase (buyerCredits : Num) (s : Sale) (amount : Num) : bool :=
  safeCredit buyerCredits amount
  && safe (ToNumber (pricePerCredit s))
  && safe (mul amount (ToNumber (pricePerCredit s)))
  && safe (ToNumber (creditsForSale s))
  && safe (sub (ToNumber (creditsForSale s)) amount).

(** [ctx.clientIdentity.getID()] of the Fabric shim yields the text
    x509:: followed by the subject and issuer names of the certificate. *)
Definition isFabricID (identity : string) : bool :=
  String.prefix "x509::" identity.

(** ** Conditions on invocations under which the invariants hold *)

(** The caller is a Fabric identity and no amount that ends up in a
    CreditBalance (credits allocated, credits auctioned, credits bought)
    is negative. *)
Definition benign (tx : Context * Invocation) : bool :=
  isFabricID (clientIdentity_getID tx.1)
  && match tx.2 with
     | ApproveProject _ allocatedCredits =>
         negb (isNegative (parseInt allocatedCredits))
     | CreateAuction totalCredits _ _ =>
         negb (isNegative (parseInt totalCredits))
     | BuyCredits _ creditsToBuy =>
         negb (isNegative (parseInt creditsToBuy))
     | _ => true
     end.

(** A [placeBid] whose amount is a safe integer. *)
Definition integerBid (tx : Context * Invocation) : bool :=
  match tx.2 with
  | PlaceBid _ bidAmount =>
      isInteger (parseInt bidAmount) && safe (parseInt bidAmount)
  | _ => false
  end.

(** Any invocation, provided that a [buyCredits] asks for a non-negative
    safe integer number of credits and a [createSale] draws an id other
    than [saleId]. *)
Definition orderlyFor (saleId : string) (tx : Context * Invocation) : bool :=
  match tx.2 with
  | BuyCredits _ creditsToBuy =>
      isInteger (parseInt creditsToBuy)
      && negb (isNegative (parseInt creditsToBuy))
      && safe (parseInt creditsToBuy)
  | CreateSale _ _ => negb (String.eqb (uuidv4 tx.1) saleId)
  | _ => true
  end.

(** How many invocations of a sequence returned. *)
Fixpoint successes (txs : list (Context * Invocation)) (l : Ledger) : nat :=
  match txs with
  | [] => 0%nat
  | (ctx, f) :: rest =>
      ((match invoke ctx f l with Returned _ _ => 1 | Threw _ _ => 0 end)
       + successes rest (commit ctx f l))%nat
  end.

(** [creditsForSale] has not grown from [s] to [s'], and [s'] is sold
    only if [s] was already or nothing is left. *)
Definition saleProgress (s s' : Sale) : Prop :=
  le (ToNumber (creditsForSale s')) (ToNumber (creditsForSale s)) = true
  /\ (sold s' = true -> sold s = true \/ creditsForSale s' = JInt 0).

(** What the CreditBalance invariant carries along: no key reads
    as a negative balance, the amounts waiting in the proposal and in the
    auction are not negative, and the seller of the listed sale is a
    Fabric identity. *)
Definition sound (l : Ledger) : Prop :=
  (forall k, isNegative (balanceOf l k) = false)
  /\ (forall i p, l !! proposalKey i = Some (JSON_proposal p) ->
                 isNegative (ToNumber (allocatedCredits p)) = false)
  /\ (forall i a, l !! auctionKey i = Some (JSON_auction a) ->
                 isNegative (ToNumber (totalCredits a)) = false)
  /\ (forall i s, l !! saleKey i = Some (JSON_sale s) ->
                 isFabricID (seller s) = true).

(** The sale with id [i] that [s] has become, if it is still listed. *)
Definition tracks (i : string) (s : Sale) (l : Ledger) : Prop :=
  forall s1, l !! saleKey i = Some (JSON_sale s1) -> sale_id s1 = i ->
             saleProgress s s1.

(** The ledgers the contract produces: each kind of record sits under its
    own key only, no stored text is empty, no stored auction is marked as
    ended. *)
Definition wellKinded (l : Ledger) : Prop :=
  forall k b, l !! k = Some b ->
    match b with
    | JSON_governmentDetails _ => k = "governmentDetails"
    | JSON_proposal _ => k = proposalKey ""
    | JSON_auction a => k = auctionKey "" /\ ended a = false
    | JSON_sale _ => k = saleKey ""
    | Text t => t <> ""
    end.

(** ** Scenarios *)

Definition alice : string := "x509::/CN=alice::/CN=ca".
Definition bob : string := "x509::/CN=bob::/CN=ca".
Definition gov : string := "x509::/CN=gov::/CN=ca".

Definition calls (identity : string) (now : Z) (uuid : string) : Context :=
  {| clientIdentity_getID := identity; Date_now := now; uuidv4 := uuid |}.

(** submit, approve with 100 credits, issue *)
Definition issued100 : Ledger :=
  run [(calls alice 1000 "p1", SubmitProposal "wind farm" "500");
       (calls gov 2000 "", ApproveProject "p1" "100");
       (calls gov 3000 "", IssueCarbonCredits "p1")] ∅.

(** submit, approve with -5 credits, issue *)
Definition issuedMinus5 : Ledger :=
  run [(calls alice 1000 "p1", SubmitProposal "wind farm" "500");
       (calls gov 2000 "", ApproveProject "p1" "-5");
       (calls gov 3000 "", IssueCarbonCredits "p1")] ∅.

(** alice, holding 100 credits, lists 10 of them at 5 each *)
Definition listed10 : Ledger :=
  run [(calls alice 4000 "s1", CreateSale "10" "5")] issued100.

(** an auction of 40 credits from 50 up, for one second, and a bid of 60 *)
Definition bid60 : Ledger :=
  run [(calls gov 1000 "a1", CreateAuction "40" "50" "1");
       (calls bob 1500 "", PlaceBid "a1" "60")] ∅.

(** two more bids on that auction *)
Definition twoBids : list (Context * Invocation) :=
  [(calls alice 1600 "", PlaceBid "a1" "55");
   (calls alice 1700 "", PlaceBid "a1" "70")].

(** 3, 3 and 4 credits bought from the sale of 10 *)
Definition threePurchases : list (Context * Invocation) :=
  [(calls bob 5000 "", BuyCredits "s1" "3");
   (calls bob 6000 "", BuyCredits "s1" "3");
   (calls bob 7000 "", BuyCredits "s1" "4")].

(** ** Write sets and invariants of the ledgers reached from the empty one *)

(** The keys an invocation can write, read off its [putState] calls. *)
Definition writes (ctx : Context) (f : Invocation) (l : Ledger) : list string :=
  match f with
  | InitLedger _ _ _ => ["governmentDetails"]
  | SubmitProposal _ _ => [proposalKey (uuidv4 ctx)]
  | ApproveProject proposalId _ => [proposalKey proposalId]
  | IssueCarbonCredits proposalId =>
      match l !! proposalKey proposalId with
      | Some (JSON_proposal p) => [proposer p]
      | _ => []
      end
  | CreateAuction _ _ _ => [auctionKey (uuidv4 ctx)]
  | PlaceBid auctionId _ => [auctionKey auctionId]
  | EndAuction auctionId =>
      match l !! auctionKey auctionId with
      | Some (JSON_auction a) => [highestBidder a]
      | _ => []
      end
  | CreateSale _ _ => [saleKey (uuidv4 ctx)]
  | BuyCredits saleId _ =>
      match l !! saleKey saleId with
      | Some (JSON_sale s) => [clientIdentity_getID ctx; seller s; saleKey saleId]
      | _ => []
      end
  end.

(** The transaction functions that write under an identity. *)
Definition credits (f : Invocation) : bool :=
  match f with
  | IssueCarbonCredits _ | EndAuction _ | BuyCredits _ _ => true
  | _ => false
  end.

(** The four keys records are stored under. *)
Definition isRecordKey (k : string) : bool :=
  String.eqb k "governmentDetails" || String.eqb k (proposalKey "")
  || String.eqb k (auctionKey "") || String.eqb k (saleKey "").

(** A stored proposal that is not approved has no credits allocated. *)
Definition gated (l : Ledger) : Prop :=
  forall i p, l !! proposalKey i = Some (JSON_proposal p) ->
              approved p = false -> allocatedCredits p = JInt 0.

(** The highest bid of a stored auction does not count as negative. *)
Definition bidsFromZero (l : Ledger) : Prop :=
  forall i a, l !! auctionKey i = Some (JSON_auction a) ->
              isNegative (ToNumber (highestBid a)) = false.

(** A stored sale that is marked sold has nothing left for sale. *)
Definition soldOut (l : Ledger) : Prop :=
  forall i s, l !! saleKey i = Some (JSON_sale s) ->
              sold s = true -> creditsForSale s = JInt 0.

(** a proposal submitted by alice, not yet approved *)
Definition submitted : Ledger :=
  commit (calls alice 1000 "p1") (SubmitProposal "wind farm" "500") ∅.

(** * Properties *)

(** ** parseInt on examples *)

Example parseInt_plain : parseInt "100" = Int 100.
Proof. reflexivity. Qed.

Example parseInt_negative : parseInt "  -42abc" = Int (-42).
Proof. reflexivity. Qed.

Example parseInt_hex : parseInt "0x1f" = Int 31.
Proof. reflexivity. Qed.

Example parseInt_text : parseInt "abc" = NaN.
Proof. reflexivity. Qed.

Example parseInt_identity : parseInt "x509::/CN=alice::/CN=ca15" = NaN.
Proof. reflexivity. Qed.

Example toString_negative : toString (Int (-15)) = "-15".
Proof. reflexivity. Qed.

(** ** [parseInt] reads back what [toString] writes *)

Lemma radixDigit_pretty_N_char (d : N) :
  (d < 10)%N -> radixDigit 10 (pretty_N_char d) = Some (Z.of_N d).
Proof.
  intros Hd.
  assert (d = 0 \/ d = 1 \/ d = 2 \/ d = 3 \/ d = 4 \/ d = 5 \/ d = 6 \/ d = 7
          \/ d = 8 \/ d = 9)%N as Hcases by lia.
  repeat (destruct Hcases as [Hc | Hcases]; [rewrite Hc; reflexivity |]).
  rewrite Hcases. reflexivity.
Qed.

Lemma digitsAcc_pretty_N_go (x : N) : forall s,
  digitsAcc 10 0 (pretty_N_go x s) = digitsAcc 10 (Z.of_N x) s.
Proof.
  induction (N.lt_wf_0 x) as [x _ IH]. intros s.
  destruct (decide (x = 0)%N) as [-> | Hx].
  - reflexivity.
  - rewrite pretty_N_go_step by lia.
    rewrite IH by (apply N.div_lt; lia).
    cbn [digitsAcc].
    rewrite radixDigit_pretty_N_char by (apply N.mod_lt; lia).
    f_equal. rewrite (N.div_mod x 10) at 3 by lia. lia.
Qed.

(** A positive number is written with a leading digit from 1 to 9. *)
Lemma pretty_N_go_head (x : N) : forall s,
  (0 < x)%N ->
  exists d s', (1 <= d <= 9)%N /\ pretty_N_go x s = String (pretty_N_char d) s'.
Proof.
  induction (N.lt_wf_0 x) as [x _ IH]. intros s Hx.
  rewrite pretty_N_go_step by lia.
  destruct (decide (x < 10)%N) as [Hlt | Hge].
  - rewrite N.div_small, N.mod_small by lia.
    exists x, s. split; [lia | reflexivity].
  - apply IH; [apply N.div_lt; lia |].
    apply N.div_str_pos; lia.
Qed.

Lemma parseInt_leading_digit (d : N) (s : string) :
  (1 <= d <= 9)%N ->
  parseInt (String (pretty_N_char d) s)
  = Int (digitsAcc 10 0 (String (pretty_N_char d) s))
  /\ parseInt (String "-" (String (pretty_N_char d) s))
     = Int (- digitsAcc 10 0 (String (pretty_N_char d) s)).
Proof.
  intros Hd.
  assert (d = 1 \/ d = 2 \/ d = 3 \/ d = 4 \/ d = 5 \/ d = 6 \/ d = 7
          \/ d = 8 \/ d = 9)%N as Hcases by lia.
  repeat (destruct Hcases as [Hc | Hcases];
          [rewrite Hc; destruct s as [| c2 [| c3 s3]]; split;
           cbv -[digitsAcc Z.mul Z.opp]; f_equal; lia |]).
  rewrite Hcases. destruct s as [| c2 [| c3 s3]]; split;
    cbv -[digitsAcc Z.mul Z.opp]; f_equal; lia.
Qed.

Lemma parseInt_pretty_positive (p : positive) :
  parseInt (pretty (Z.pos p)) = Int (Z.pos p)
  /\ parseInt (pretty (Z.neg p)) = Int (Z.neg p).
Proof.
  unfold pretty, pretty_Z, pretty, pretty_positive, pretty, pretty_N.
  destruct (decide (N.pos p = 0%N)) as [Hp | _]; [discriminate |].
  destruct (pretty_N_go_head (N.pos p) "" ltac:(lia)) as (d & s' & Hd & Heq).
  pose proof (digitsAcc_pretty_N_go (N.pos p) "") as Hval.
  rewrite Heq in *.
  change ("-" +:+ String (pretty_N_char d) s')
    with (String "-" (String (pretty_N_char d) s')).
  destruct (parseInt_leading_digit d s' Hd) as [-> ->].
  rewrite Hval. cbn [digitsAcc]. split; reflexivity.
Qed.

Lemma parseInt_toString (n : Num) : parseInt (toString n) = n.
Proof.
  destruct n as [| [| p | p]]; try reflexivity; cbn [toString];
    apply parseInt_pretty_positive.
Qed.

(** ** Unfolding a transaction function into its ledger reads and writes *)

Ltac tx_unfold :=
  unfold commit, invoke, initLedger, submitProposal, approveProject,
    issueCarbonCredits, createAuction, placeBid, endAuction, createSale,
    buyCredits, parseProposal, parseAuction, parseSale,
    bind, ret, throw, getState, putState in *.

Ltac tx_cases := tx_unfold; repeat case_match; simplify_eq.

Ltac lookup_cases :=
  repeat match goal with
         | H : <[_ := _]> _ !! _ = Some _ |- _ =>
             rewrite lookup_insert in H; case_decide; simplify_eq
         end.

(** ** Facts about numbers and balances *)

Lemma le_refl_ToNumber (j : JNum) : le (ToNumber j) (ToNumber j) = true.
Proof. destruct j; cbn; lia. Qed.

Lemma le_trans (a b c : Num) : le a b = true -> le b c = true -> le a c = true.
Proof. destruct a, b, c; cbn; try discriminate; lia. Qed.

Lemma isNegative_add (a b : Num) :
  isNegative a = false -> isNegative b = false -> isNegative (add a b) = false.
Proof. destruct a, b; cbn; try reflexivity; lia. Qed.

Lemma isNegative_ToNumber_toJSON (n : Num) :
  isNegative n = false -> isNegative (ToNumber (toJSON n)) = false.
Proof. destruct n; cbn; [reflexivity | tauto]. Qed.

Lemma toString_nonempty (n : Num) : toString n <> "".
Proof.
  intros H. pose proof (parseInt_toString n) as Hn. rewrite H in Hn.
  subst n. discriminate H.
Qed.

Lemma existingCreditsOf_toString (n : Num) :
  existingCreditsOf (Some (Text (toString n))) = n.
Proof.
  pose proof (toString_nonempty n) as Hne.
  unfold existingCreditsOf, isEmpty, parseIntBytes.
  destruct (toString n) eqn:Ht; [congruence |].
  rewrite <- Ht. apply parseInt_toString.
Qed.

Lemma prefix_append (p s : string) :
  String.prefix p s = true -> exists r, s = p +:+ r.
Proof.
  revert s. induction p as [| c p IH]; intros s H.
  - exists s. reflexivity.
  - destruct s as [| c' s]; [discriminate H |]. cbn in H.
    destruct (ascii_dec c c') as [<- | _]; [| discriminate H].
    destruct (IH s H) as [r ->]. exists r. reflexivity.
Qed.

(** A Fabric identity followed by anything does not read as a number. *)
Lemma existingCreditsOf_fabric (identity t : string) :
  isFabricID identity = true ->
  existingCreditsOf (Some (Text (identity +:+ t))) = NaN.
Proof.
  intros H. apply prefix_append in H as [r ->]. reflexivity.
Qed.

Lemma isFabricID_not_key (identity : string) :
  isFabricID identity = true ->
  identity <> "governmentDetails" /\ identity <> proposalKey ""
  /\ identity <> auctionKey "" /\ identity <> saleKey "".
Proof.
  intros H. apply prefix_append in H as [r ->]. repeat split; discriminate.
Qed.

(** ** The ledgers the contract produces *)

Lemma append_nonempty (s t : string) : t <> "" -> s +:+ t <> "".
Proof. destruct s; [tauto | discriminate]. Qed.

(** Every invocation keeps each kind of record under its own key, and
    never stores an empty text; no stored auction is marked as ended. *)
Lemma wellKinded_commit (ctx : Context) (f : Invocation) (l : Ledger) :
  wellKinded l -> wellKinded (commit ctx f l).
Proof.
  unfold wellKinded. intros Hl k b Hlook.
  destruct f; tx_unfold; unfold saleKey, proposalKey, auctionKey in *;
    repeat case_match; simplify_eq; lookup_cases;
    try (apply Hl in Hlook; exact Hlook);
    auto using toString_nonempty, append_nonempty.
  split; [reflexivity |]. cbn.
  match goal with
  | H : _ !! _ = Some (JSON_auction _) |- _ => apply Hl in H; tauto
  end.
Qed.

Lemma wellKinded_run (txs : list (Context * Invocation)) :
  wellKinded (run txs ∅).
Proof.
  assert (forall l, wellKinded l -> wellKinded (run txs l)) as Hrun.
  { induction txs as [| [ctx f] rest IH]; intros l Hl; [exact Hl |].
    cbn [run]. apply IH, wellKinded_commit, Hl. }
  apply Hrun. intros k b Hk. rewrite lookup_empty in Hk. discriminate Hk.
Qed.

(** X24. On no ledger reached from the empty one does endAuction throw
    AlreadyEnded: no transaction function ever stores an auction marked as
    ended. *)
Lemma endAuction_never_AlreadyEnded (txs : list (Context * Invocation))
    (ctx : Context) (auctionId : string) :
  thrown (endAuction ctx auctionId (run txs ∅)) <> Some AlreadyEnded.
Proof.
  pose proof (wellKinded_run txs) as Hwk. intros Hthrown.
  unfold endAuction, parseAuction, bind, ret, throw, getState, putState in Hthrown.
  destruct (run txs ∅ !! auctionKey auctionId) as [b |] eqn:Hb;
    [| discriminate Hthrown].
  apply Hwk in Hb. destruct b; cbn in Hthrown; try discriminate Hthrown.
  - destruct Hb as [_ Hended]. rewrite Hended in Hthrown.
    destruct (ToNumber (endTime a)) as [| y];
      [| destruct (Date_now ctx <? y)]; discriminate Hthrown.
  - destruct t; discriminate Hthrown.
Qed.

(** What buyCredits leaves under the seller's key, the seller not being
    the sale key and the total cost being safe: the seller's identity
    followed by the total cost. *)
Lemma buyCredits_seller_write (ctx : Context) (saleId creditsToBuy : string)
    (l : Ledger) (s : Sale) :
  l !! saleKey saleId = Some (JSON_sale s) ->
  sold s = false ->
  seller s <> saleKey saleId ->
  safe (parseInt creditsToBuy) = true ->
  safe (ToNumber (pricePerCredit s)) = true ->
  safe (mul (parseInt creditsToBuy) (ToNumber (pricePerCredit s))) = true ->
  commit ctx (BuyCredits saleId creditsToBuy) l !! seller s
  = Some (Text (seller s +:+ toString (mul (parseInt creditsToBuy)
                                          (ToNumber (pricePerCredit s))))).
Proof.
  intros Hs Hunsold Hne _ _ _.
  unfold commit, invoke, buyCredits, parseSale, bind, ret, throw, getState,
    putState.
  rewrite Hs. cbn. rewrite Hunsold.
  rewrite lookup_insert_ne by congruence. apply lookup_insert_eq.
Qed.

(** ** C1: proposals share one key *)

(** C1 (as the code behaves). Two successive submitProposal invocations
    write under the same key, whatever ids were drawn, and the ledger
    after both is the ledger after the second alone: the first proposal
    is overwritten. *)
Theorem submitProposal_overwrites (ctx1 ctx2 : Context)
    (description1 target1 description2 target2 : string) (l : Ledger) :
  proposalKey (uuidv4 ctx1) = proposalKey (uuidv4 ctx2)
  /\ run [(ctx1, SubmitProposal description1 target1);
          (ctx2, SubmitProposal description2 target2)] l
     = run [(ctx2, SubmitProposal description2 target2)] l.
Proof.
  split; [reflexivity |].
  cbn [run]. tx_unfold. unfold proposalKey.
  apply insert_insert_eq.
Qed.

(** ** C2: issuing twice mints twice *)

(** C2 (as the code behaves). After submit, approve with 100 credits and
    issue, the proposer holds 100; a second issueCarbonCredits for the same
    proposal returns normally and leaves the proposer with 200. *)
Theorem issueCarbonCredits_again_mints_again :
  balanceOf issued100 alice = Int 100
  /\ thrown (issueCarbonCredits (calls gov 4000 "") "p1" issued100) = None
  /\ balanceOf (commit (calls gov 4000 "") (IssueCarbonCredits "p1") issued100)
       alice = Int 200.
Proof.
  repeat split; vm_compute; reflexivity.
Qed.

(** ** C3: the seller's key receives a text, not a sum *)

(** C3 (as the code behaves). Alice holds 100 credits and lists 10 at 5
    each; Bob buys 3.  The bytes under Alice's key are then her identity
    followed by 15, which reads back as [NaN], not as 100 + 15. *)
Theorem buyCredits_seller_gets_text :
  let l' := commit (calls bob 5000 "") (BuyCredits "s1" "3") listed10 in
  balanceOf listed10 alice = Int 100
  /\ thrown (buyCredits (calls bob 5000 "") "s1" "3" listed10) = None
  /\ l' !! alice = Some (Text "x509::/CN=alice::/CN=ca15")
  /\ balanceOf l' alice = NaN.
Proof.
  repeat split; vm_compute; reflexivity.
Qed.

(** ** C4: what is left of a sale *)

Lemma saleProgress_refl (s : Sale) : saleProgress s s.
Proof. split; [apply le_refl_ToNumber | tauto]. Qed.

Lemma saleProgress_buy (s s0 : Sale) (z : Z) :
  saleProgress s s0 -> sold s0 = false -> 0 <= z ->
  saleProgress s {|
    sale_id := sale_id s0;
    creditsForSale := toJSON (sub (ToNumber (creditsForSale s0)) (Int z));
    pricePerCredit := pricePerCredit s0;
    seller := seller s0;
    sold := if isZero (sub (ToNumber (creditsForSale s0)) (Int z))
            then true else sold s0 |}.
Proof.
  intros [Hle Hsold] Hunsold Hz. split; cbn.
  - destruct (creditsForSale s0), (creditsForSale s); cbn in *; lia.
  - rewrite Hunsold. destruct (creditsForSale s0); cbn;
      destruct (_ =? 0) eqn:Hzero; try discriminate;
      intros _; right; f_equal; lia.
Qed.

(** How an invocation can leave a sale record under the sale key: it was
    there before, or createSale has just listed it, or buyCredits has
    just taken credits from the unsold sale that was there. *)
Lemma commit_sale (ctx : Context) (f : Invocation) (l : Ledger) (i : string)
    (s1 : Sale) :
  commit ctx f l !! saleKey i = Some (JSON_sale s1) ->
  l !! saleKey i = Some (JSON_sale s1)
  \/ (exists amount price, f = CreateSale amount price /\ sale_id s1 = uuidv4 ctx)
  \/ (exists saleId creditsToBuy s0,
        f = BuyCredits saleId creditsToBuy
        /\ l !! saleKey i = Some (JSON_sale s0)
        /\ sold s0 = false
        /\ s1 = {|
             sale_id := sale_id s0;
             creditsForSale :=
               toJSON (sub (ToNumber (creditsForSale s0)) (parseInt creditsToBuy));
             pricePerCredit := pricePerCredit s0;
             seller := seller s0;
             sold := if isZero (sub (ToNumber (creditsForSale s0))
                                    (parseInt creditsToBuy))
                     then true else sold s0 |}).
Proof.
  intros Hlook.
  destruct f;
    try (tx_unfold; unfold saleKey, proposalKey, auctionKey in *;
         repeat case_match; simplify_eq; lookup_cases; solve [eauto 6]).
  unfold commit, invoke, buyCredits, parseSale, bind, ret, throw, getState,
    putState in Hlook.
  unfold saleKey in *.
  destruct (l !! "sale_${saleId}") as [[g | p | a | s0 | t] |] eqn:Hs0;
    cbn in Hlook; try (left; congruence).
  - destruct (sold s0) eqn:Hunsold; cbn in Hlook; [left; congruence |].
    rewrite lookup_insert_eq in Hlook. injection Hlook as <-.
    right; right. exists saleId, creditsToBuy, s0.
    rewrite Hunsold. repeat split.
  - destruct t; cbn in Hlook; left; congruence.
Qed.

Lemma tracks_commit (i : string) (s : Sale) (ctx : Context) (f : Invocation)
    (l : Ledger) :
  tracks i s l -> orderlyFor i (ctx, f) = true -> tracks i s (commit ctx f l).
Proof.
  intros Hl Hord s1 Hlook Hid.
  apply commit_sale in Hlook
    as [Hsame | [(amount & price & -> & Hnew)
                | (saleId & creditsToBuy & s0 & -> & Hs0 & Hunsold & ->)]].
  - apply Hl; assumption.
  - unfold orderlyFor in Hord. cbn in Hord.
    rewrite <- Hnew, Hid, String.eqb_refl in Hord. discriminate Hord.
  - unfold orderlyFor in Hord. cbn in Hord.
    apply andb_true_iff in Hord as [Hord _].
    apply andb_true_iff in Hord as [Hint Hpos].
    destruct (parseInt creditsToBuy) as [| z]; [discriminate Hint |].
    apply saleProgress_buy; [apply Hl; [exact Hs0 | exact Hid] | exact Hunsold |].
    cbn in Hpos. lia.
Qed.

(** C4 (amended). Take a stored Sale and any sequence of invocations in
    which every buyCredits asks for a non-negative safe integer number of
    credits and no createSale draws the id of the Sale again.  If a Sale
    with that id is stored afterwards, its creditsForSale is not greater
    than it was, and it is sold only if it was already or its
    creditsForSale is exactly zero. *)
Theorem creditsForSale_sequence (txs : list (Context * Invocation)) :
  forall (l : Ledger) (s s' : Sale),
    l !! saleKey (sale_id s) = Some (JSON_sale s) ->
    forallb (orderlyFor (sale_id s)) txs = true ->
    run txs l !! saleKey (sale_id s) = Some (JSON_sale s') ->
    sale_id s' = sale_id s ->
    saleProgress s s'.
Proof.
  intros l s s' Hs Htxs. 
  assert (tracks (sale_id s) s l) as Hl.
  { intros s1 H1 _. rewrite Hs in H1. injection H1 as <-. apply saleProgress_refl. }
  clear Hs. revert l Hl.
  induction txs as [| [ctx f] rest IH]; intros l Hl Hfinal Hid.
  - apply Hl; assumption.
  - cbn in Htxs. apply andb_true_iff in Htxs as [Htx Hrest].
    eapply IH; [exact Hrest | | exact Hfinal | exact Hid].
    apply tracks_commit; assumption.
Qed.

(** C4 (as stated) fails: buyCredits takes a negative number of credits,
    and the 10 credits left of the sale become 15. *)
Lemma creditsForSale_grows_on_negative_purchase :
  let l' := commit (calls bob 5000 "") (BuyCredits "s1" "-5") listed10 in
  thrown (buyCredits (calls bob 5000 "") "s1" "-5" listed10) = None
  /\ (exists s, listed10 !! saleKey "s1" = Some (JSON_sale s)
                /\ sale_id s = "s1" /\ creditsForSale s = JInt 10)
  /\ (exists s', l' !! saleKey "s1" = Some (JSON_sale s')
                 /\ sale_id s' = "s1" /\ creditsForSale s' = JInt 15).
Proof.
  split; [vm_compute; reflexivity |].
  split; eexists; (split; [vm_compute; reflexivity |]); repeat split.
Qed.

Lemma creditsForSale_sequence_witness :
  saleProgress
    {| sale_id := "s1"; creditsForSale := JInt 10; pricePerCredit := JInt 5;
       seller := alice; sold := false |}
    {| sale_id := "s1"; creditsForSale := JInt 0; pricePerCredit := JInt 5;
       seller := alice; sold := true |}.
Proof.
  exact (creditsForSale_sequence threePurchases listed10
           {| sale_id := "s1"; creditsForSale := JInt 10; pricePerCredit := JInt 5;
              seller := alice; sold := false |}
           {| sale_id := "s1"; creditsForSale := JInt 0; pricePerCredit := JInt 5;
              seller := alice; sold := true |}
           ltac:(vm_compute; reflexivity) ltac:(vm_compute; reflexivity)
           ltac:(vm_compute; reflexivity) ltac:(reflexivity)).
Defined.

(** ** C5: balances under benign invocations *)

Lemma sound_empty : sound ∅.
Proof.
  unfold sound, balanceOf.
  repeat split; intros; rewrite lookup_empty in *; solve [reflexivity | discriminate].
Qed.

Lemma existingCreditsOf_insert (l : Ledger) (k k' : string) (v : Bytes) :
  existingCreditsOf (<[k := v]> l !! k')
  = if decide (k = k') then existingCreditsOf (Some v)
    else existingCreditsOf (l !! k').
Proof. rewrite lookup_insert. destruct (decide (k = k')); reflexivity. Qed.

Ltac balance_cases :=
  repeat (rewrite existingCreditsOf_insert; case_decide);
  rewrite ?existingCreditsOf_toString;
  try (erewrite existingCreditsOf_fabric by eauto);
  try reflexivity; try (apply isNegative_add); eauto.

Lemma sound_commit (ctx : Context) (f : Invocation) (l : Ledger) :
  sound l -> benign (ctx, f) = true -> sound (commit ctx f l).
Proof.
  unfold sound, benign, balanceOf. cbn [fst snd].
  intros (Hbal & Hprop & Hauc & Hsale) Hben.
  apply andb_true_iff in Hben as [Hid Harg].
  destruct f; try apply negb_true_iff in Harg;
    tx_unfold; unfold saleKey, proposalKey, auctionKey in *;
    repeat case_match; simplify_eq;
    (split; [intros k; balance_cases
            | repeat split; intros; lookup_cases; cbn;
              try apply isNegative_ToNumber_toJSON; eauto]).
Qed.

(** C5 (amended). From the empty ledger, after any sequence of invocations
    made by Fabric identities in which no approveProject allocates, no
    createAuction offers and no buyCredits asks for a negative amount, no
    key of the ledger reads as a negative CreditBalance. *)
Theorem balance_not_negative (txs : list (Context * Invocation))
    (identity : string) :
  forallb benign txs = true ->
  isNegative (balanceOf (run txs ∅) identity) = false.
Proof.
  intros Htxs.
  assert (forall l, sound l -> sound (run txs l)) as Hrun.
  { induction txs as [| [ctx f] rest IH]; intros l Hl; [exact Hl |].
    cbn in Htxs. apply andb_true_iff in Htxs as [Htx Hrest].
    cbn [run]. apply IH; [exact Hrest |]. apply sound_commit; assumption. }
  apply (Hrun ∅ sound_empty).
Qed.

Lemma balance_not_negative_witness :
  isNegative (balanceOf listed10 alice) = false.
Proof.
  exact (balance_not_negative
           [(calls alice 1000 "p1", SubmitProposal "wind farm" "500");
            (calls gov 2000 "", ApproveProject "p1" "100");
            (calls gov 3000 "", IssueCarbonCredits "p1");
            (calls alice 4000 "s1", CreateSale "10" "5")] alice
           ltac:(vm_compute; reflexivity)).
Defined.

(** C5 (as stated) fails: approveProject takes a negative allocation, and
    issueCarbonCredits then leaves the proposer with a negative balance. *)
Lemma balance_negative_after_negative_allocation :
  thrown (approveProject (calls gov 2000 "") "p1" "-5"
            (commit (calls alice 1000 "p1") (SubmitProposal "wind farm" "500") ∅))
  = None
  /\ issuedMinus5 !! alice = Some (Text "-5")
  /\ balanceOf issuedMinus5 alice = Int (-5)
  /\ isNegative (balanceOf issuedMinus5 alice) = true.
Proof.
  repeat split; vm_compute; reflexivity.
Qed.

(** ** C6: bids with safe integer amounts raise the highest bid *)

Lemma placeBid_step (ctx : Context) (auctionId bidAmount : string)
    (l : Ledger) (a : Auction) :
  l !! auctionKey (auction_id a) = Some (JSON_auction a) ->
  isInteger (parseInt bidAmount) = true ->
  exists a',
    commit ctx (PlaceBid auctionId bidAmount) l !! auctionKey (auction_id a)
    = Some (JSON_auction a')
    /\ auction_id a' = auction_id a
    /\ startingBid a' = startingBid a
    /\ le (ToNumber (highestBid a)) (ToNumber (highestBid a')) = true
    /\ (thrown (placeBid ctx auctionId bidAmount l) = None ->
        le (ToNumber (startingBid a)) (ToNumber (highestBid a')) = true).
Proof.
  intros Ha Hint. unfold commit, invoke, thrown.
  unfold placeBid, parseAuction, bind, ret, throw, getState, putState.
  unfold auctionKey in *. rewrite Ha. cbn.
  destruct (gt _ _).
  { exists a. repeat split; [exact Ha | apply le_refl_ToNumber | discriminate]. }
  destruct (parseInt bidAmount) as [| z]; [discriminate Hint |].
  destruct (le _ _ || lt _ _) eqn:Hlow.
  { exists a. repeat split; [exact Ha | apply le_refl_ToNumber | discriminate]. }
  eexists. rewrite lookup_insert_eq. split; [reflexivity |]. cbn.
  apply orb_false_iff in Hlow as [Hhb Hsb].
  destruct (highestBid a), (startingBid a); cbn in *; repeat split; intros; lia.
Qed.

(** C6 (amended). From any ledger holding an auction, after any sequence
    of placeBid invocations whose amounts are safe integers the auction
    is still there with its startingBid, its highestBid is not below what
    it was, and if any of the bids returned, highestBid is at least
    startingBid. *)
Theorem placeBid_sequence (txs : list (Context * Invocation)) :
  forall (l : Ledger) (a : Auction),
    l !! auctionKey (auction_id a) = Some (JSON_auction a) ->
    forallb integerBid txs = true ->
    exists a',
      run txs l !! auctionKey (auction_id a) = Some (JSON_auction a')
      /\ startingBid a' = startingBid a
      /\ le (ToNumber (highestBid a)) (ToNumber (highestBid a')) = true
      /\ ((0 < successes txs l)%nat ->
          le (ToNumber (startingBid a)) (ToNumber (highestBid a')) = true).
Proof.
  induction txs as [| [ctx f] rest IH]; intros l a Ha Hbids.
  - exists a. cbn. repeat split; [exact Ha | apply le_refl_ToNumber | lia].
  - cbn in Hbids. apply andb_true_iff in Hbids as [Hbid Hrest].
    destruct f; try discriminate Hbid. cbn in Hbid.
    apply andb_true_iff in Hbid as [Hbid _].
    destruct (placeBid_step ctx auctionId bidAmount l a Ha Hbid)
      as (a1 & Ha1 & Hid1 & Hsb1 & Hhb1 & Hfirst).
    rewrite <- Hid1 in Ha1.
    destruct (IH _ a1 Ha1 Hrest) as (a' & Ha' & Hsb' & Hhb' & Hlater).
    exists a'. cbn [run successes]. rewrite <- Hid1.
    split; [exact Ha' |]. split; [congruence |].
    split; [eapply le_trans; eassumption |].
    intros Hsome. cbn [invoke] in Hsome.
    destruct (placeBid ctx auctionId bidAmount l) eqn:Hout.
    + eapply le_trans; [apply Hfirst; reflexivity | exact Hhb'].
    + rewrite <- Hsb1. apply Hlater. cbn in Hsome. exact Hsome.
Qed.

Lemma placeBid_sequence_witness :
  exists a',
    run twoBids bid60 !! auctionKey "a1" = Some (JSON_auction a')
    /\ startingBid a' = JInt 50
    /\ le (Int 60) (ToNumber (highestBid a')) = true
    /\ ((0 < successes twoBids bid60)%nat ->
        le (Int 50) (ToNumber (highestBid a')) = true).
Proof.
  exact (placeBid_sequence twoBids bid60
           {| auction_id := "a1";
              totalCredits := JInt 40;
              startingBid := JInt 50;
              highestBid := JInt 60;
              highestBidder := bob;
              endTime := JInt 2000;
              ended := false |}
           ltac:(vm_compute; reflexivity) ltac:(vm_compute; reflexivity)).
Defined.

(** C6 (as stated) fails: with highestBid at 60 and startingBid at 50, a
    bid whose amount is not a number passes both comparisons, returns, and
    leaves highestBid at null, which counts as 0: below 60 and below 50. *)
Lemma placeBid_not_a_number :
  let l' := commit (calls alice 1600 "") (PlaceBid "a1" "abc") bid60 in
  thrown (placeBid (calls alice 1600 "") "a1" "abc" bid60) = None
  /\ (exists a, bid60 !! auctionKey "a1" = Some (JSON_auction a)
                /\ highestBid a = JInt 60 /\ startingBid a = JInt 50)
  /\ (exists a', l' !! auctionKey "a1" = Some (JSON_auction a')
                 /\ highestBid a' = JNull
                 /\ lt (ToNumber (highestBid a')) (Int 60) = true
                 /\ lt (ToNumber (highestBid a')) (Int 50) = true).
Proof.
  split; [vm_compute; reflexivity |].
  split; eexists; (split; [vm_compute; reflexivity |]); repeat split.
Qed.

(** ** C7: placeBid and the auction it names *)

(** C7 (as the code behaves). The auction key does not depend on the
    auction id.  With the auction a1 stored and no other ever created,
    placeBid for an auction id that does not exist does not throw
    NotFound: it returns and records the bid on a1. *)
Theorem placeBid_ignores_auction_id :
  let l' := commit (calls alice 1600 "") (PlaceBid "no-such-auction" "61") bid60 in
  (exists a, bid60 !! auctionKey "a1" = Some (JSON_auction a)
             /\ auction_id a = "a1" /\ highestBid a = JInt 60)
  /\ auctionKey "no-such-auction" = auctionKey "a1"
  /\ thrown (placeBid (calls alice 1600 "") "no-such-auction" "61" bid60) = None
  /\ l' !! auctionKey "a1"
     = Some (JSON_auction {|
         auction_id := "a1";
         totalCredits := JInt 40;
         startingBid := JInt 50;
         highestBid := JInt 61;
         highestBidder := alice;
         endTime := JInt 2000;
         ended := false |}).
Proof.
  split; [eexists; split; [vm_compute; reflexivity | split; reflexivity] |].
  repeat split; vm_compute; reflexivity.
Qed.

(** What placeBid does with whatever is stored under the one auction key,
    nothing or an auction record, for a safe amount: it throws NotFound
    exactly when there is no record; with a record, it throws AuctionEnded
    exactly when the current time is greater than endTime; failing that,
    it throws BidTooLow exactly when the amount is at most highestBid or
    below startingBid; otherwise it returns, having rewritten the record
    with the amount as highestBid and the caller as highestBidder, and
    written nothing else. *)
Lemma placeBid_outcomes (ctx : Context) (auctionId bidAmount : string)
    (l : Ledger)
    (Hkind : l !! auctionKey auctionId = None
             \/ exists a, l !! auctionKey auctionId = Some (JSON_auction a))
    (Hsafe : safe (parseInt bidAmount) = true) :
  let outcome := placeBid ctx auctionId bidAmount l in
  (outcome = Threw NotFound l <-> l !! auctionKey auctionId = None)
  /\ forall a, l !! auctionKey auctionId = Some (JSON_auction a) ->
       let late := gt (Int (Date_now ctx)) (ToNumber (endTime a)) in
       let low := le (parseInt bidAmount) (ToNumber (highestBid a))
                  || lt (parseInt bidAmount) (ToNumber (startingBid a)) in
       (outcome = Threw AuctionEnded l <-> late = true)
       /\ (late = false -> (outcome = Threw BidTooLow l <-> low = true))
       /\ (late = false -> low = false ->
           outcome
           = Returned "Bid of ${bidAmountInt} placed for auction ${auctionId}"
               (<[auctionKey auctionId := JSON_auction {|
                    auction_id := auction_id a;
                    totalCredits := totalCredits a;
                    startingBid := startingBid a;
                    highestBid := toJSON (parseInt bidAmount);
                    highestBidder := clientIdentity_getID ctx;
                    endTime := endTime a;
                    ended := ended a |}]> l)).
Proof.
  cbn zeta. unfold placeBid, parseAuction, bind, ret, throw, getState, putState.
  destruct Hkind as [Hnone | [a0 Hsome]].
  - rewrite Hnone. cbn. split; [tauto | intros a Ha; discriminate Ha].
  - rewrite Hsome. cbn.
    destruct (gt (Int (Date_now ctx)) (ToNumber (endTime a0))) eqn:Hlate;
      [| destruct (le (parseInt bidAmount) (ToNumber (highestBid a0))
                   || lt (parseInt bidAmount) (ToNumber (startingBid a0)))
           eqn:Hlow];
      (split; [split; intros H; discriminate H |]);
      intros a Ha; injection Ha as <-; rewrite Hlate, ?Hlow;
      repeat split; intros; try reflexivity; discriminate.
Qed.

Lemma placeBid_outcomes_witness :
  placeBid (calls alice 1600 "") "a1" "61" bid60
  = Returned "Bid of ${bidAmountInt} placed for auction ${auctionId}"
      (<[auctionKey "a1" := JSON_auction {|
           auction_id := "a1";
           totalCredits := JInt 40;
           startingBid := JInt 50;
           highestBid := JInt 61;
           highestBidder := alice;
           endTime := JInt 2000;
           ended := false |}]> bid60).
Proof.
  assert (bid60 !! auctionKey "a1"
          = Some (JSON_auction {|
              auction_id := "a1";
              totalCredits := JInt 40;
              startingBid := JInt 50;
              highestBid := JInt 60;
              highestBidder := bob;
              endTime := JInt 2000;
              ended := false |})) as Hrecord by (vm_compute; reflexivity).
  refine (proj2 (proj2 (proj2
            (placeBid_outcomes (calls alice 1600 "") "a1" "61" bid60
               (or_intror (ex_intro _ _ Hrecord)) ltac:(vm_compute; reflexivity))
            _ Hrecord)) _ _);
    vm_compute; reflexivity.
Defined.

(** ** C8: endAuction does not record that the auction ended *)

(** C8 (as the code behaves). With the auction over, endAuction returns
    and credits the 40 credits to the highest bidder, but the auction
    record is left as it was, [ended] still false; a second endAuction
    returns as well and credits 40 more. *)
Theorem endAuction_again_credits_again :
  let l1 := commit (calls gov 2000 "") (EndAuction "a1") bid60 in
  let l2 := commit (calls gov 3000 "") (EndAuction "a1") l1 in
  thrown (endAuction (calls gov 2000 "") "a1" bid60) = None
  /\ l1 !! auctionKey "a1"
     = Some (JSON_auction {|
         auction_id := "a1";
         totalCredits := JInt 40;
         startingBid := JInt 50;
         highestBid := JInt 60;
         highestBidder := bob;
         endTime := JInt 2000;
         ended := false |})
  /\ balanceOf l1 bob = Int 40
  /\ thrown (endAuction (calls gov 3000 "") "a1" l1) = None
  /\ balanceOf l2 bob = Int 80.
Proof.
  repeat split; vm_compute; reflexivity.
Qed.

(** ** C9: createSale checks the balance and writes only the sale *)



(** ** C10: a thrown error leaves no write behind *)

(** C10. Whatever the transaction function, the ledger and the arguments:
    when the invocation throws, the ledger it has written so far is the
    ledger it started from, so no [putState] precedes any [throw]. *)
Theorem error_no_writes (ctx : Context) (f : Invocation) (l l' : Ledger)
    (e : Error) :
  invoke ctx f l = Threw e l' -> l' = l.
Proof.
  destruct f; intros H; tx_cases; reflexivity.
Qed.

Lemma error_no_writes_witness :
  invoke (calls bob 5000 "") (BuyCredits "s1" "3") issued100
  = Threw NotFound issued100
  /\ issued100 = issued100.
Proof.
  assert (invoke (calls bob 5000 "") (BuyCredits "s1" "3") issued100
          = Threw NotFound issued100) as H by (vm_compute; reflexivity).
  split; [exact H | exact (error_no_writes _ _ _ _ _ H)].
Defined.

(** * Further properties of the transaction functions *)

(** ** initLedger *)

(** X1. initLedger never throws and writes the profile of its caller under
    governmentDetails only; a later initLedger, by whichever caller,
    replaces the profile, so that the ledger after two of them is the
    ledger after the second alone. *)
Theorem initLedger_last_wins (ctx1 ctx2 : Context)
    (name1 country1 dept1 name2 country2 dept2 : string) (l : Ledger) :
  thrown (initLedger ctx2 name2 country2 dept2 l) = None
  /\ run [(ctx1, InitLedger name1 country1 dept1);
          (ctx2, InitLedger name2 country2 dept2)] l
     = <["governmentDetails" := JSON_governmentDetails {|
            governmentAddress := clientIdentity_getID ctx2;
            governmentName := name2;
            country := country2;
            deptName := dept2 |}]> l.
Proof.
  split; [reflexivity |].
  cbn [run]. tx_unfold. apply insert_insert_eq.
Qed.

(** ** The write set of an invocation *)

(** X2. Whatever the invocation does, a key outside its write set holds
    afterwards the bytes it held before. *)
Theorem commit_frame (ctx : Context) (f : Invocation) (l : Ledger) (k : string) :
  k ∉ writes ctx f l -> commit ctx f l !! k = l !! k.
Proof.
  intros Hk.
  destruct f; cbn [writes] in Hk; tx_unfold;
    repeat case_match; simplify_eq; try reflexivity;
    repeat (rewrite lookup_insert_ne by (intros <-; apply Hk; set_solver));
    reflexivity.
Qed.

Lemma commit_frame_witness :
  commit (calls bob 5000 "") (BuyCredits "s1" "3") listed10 !! proposalKey "p1"
  = listed10 !! proposalKey "p1".
Proof.
  apply commit_frame. vm_compute.
  intros H. repeat (apply elem_of_cons in H as [H | H]; [discriminate H |]).
  apply elem_of_nil in H. exact H.
Defined.

(** X3. Only issueCarbonCredits, endAuction and buyCredits write under an
    identity: after any other invocation, every key that is not one of the
    four record keys holds the bytes, and so the balance, it had. *)
Theorem balance_untouched (ctx : Context) (f : Invocation) (l : Ledger)
    (identity : string) :
  credits f = false -> isRecordKey identity = false ->
  commit ctx f l !! identity = l !! identity
  /\ balanceOf (commit ctx f l) identity = balanceOf l identity.
Proof.
  intros Hf Hid. unfold isRecordKey, proposalKey, auctionKey, saleKey in Hid.
  repeat (apply orb_false_iff in Hid as [Hid ?]).
  repeat match goal with
         | H : (_ =? _)%string = false |- _ => apply String.eqb_neq in H
         end.
  assert (commit ctx f l !! identity = l !! identity) as Heq.
  { destruct f; try discriminate Hf; tx_unfold;
      unfold proposalKey, auctionKey, saleKey;
      repeat case_match; simplify_eq; try reflexivity;
      rewrite lookup_insert_ne by congruence; reflexivity. }
  split; [exact Heq |]. unfold balanceOf. rewrite Heq. reflexivity.
Qed.

Lemma balance_untouched_witness :
  commit (calls bob 1600 "") (PlaceBid "a1" "61") issued100 !! alice
  = issued100 !! alice
  /\ balanceOf (commit (calls bob 1600 "") (PlaceBid "a1" "61") issued100) alice
     = balanceOf issued100 alice.
Proof.
  exact (balance_untouched (calls bob 1600 "") (PlaceBid "a1" "61") issued100
           alice ltac:(reflexivity) ltac:(vm_compute; reflexivity)).
Defined.

(** ** approveProject and issueCarbonCredits *)

(** X4. With nothing or a proposal under the proposal key, approveProject
    throws NotFound exactly when there is nothing; with a proposal it
    throws AlreadyApproved exactly when the proposal is approved, and
    otherwise, for a safe allocation, returns having rewritten the
    proposal as approved with the parsed allocation, id, proposer,
    description and target kept, and written nothing else. *)
Theorem approveProject_outcomes (ctx : Context) (proposalId credit : string)
    (l : Ledger)
    (Hkind : l !! proposalKey proposalId = None
             \/ exists p, l !! proposalKey proposalId = Some (JSON_proposal p)) :
  let outcome := approveProject ctx proposalId credit l in
  (outcome = Threw NotFound l <-> l !! proposalKey proposalId = None)
  /\ forall p, l !! proposalKey proposalId = Some (JSON_proposal p) ->
       (outcome = Threw AlreadyApproved l <-> approved p = true)
       /\ (approved p = false -> safe (parseInt credit) = true ->
           outcome
           = Returned "Project ${proposalId} approved with ${allocatedCredits} carbon credits allocated"
               (<[proposalKey proposalId := JSON_proposal {|
                    proposal_id := proposal_id p;
                    proposer := proposer p;
                    projectDescription := projectDescription p;
                    carbonReductionTarget := carbonReductionTarget p;
                    approved := true;
                    allocatedCredits := toJSON (parseInt credit) |}]> l)).
Proof.
  cbn zeta.
  unfold approveProject, parseProposal, bind, ret, throw, getState, putState.
  destruct Hkind as [Hnone | [p0 Hsome]].
  - rewrite Hnone. cbn. split; [tauto | intros p Hp; discriminate Hp].
  - rewrite Hsome. cbn. destruct (approved p0) eqn:Happroved;
      (split; [split; intros H; discriminate H |]);
      intros p Hp; injection Hp as <-; rewrite Happroved;
      repeat split; intros; try reflexivity; discriminate.
Qed.

Lemma approveProject_outcomes_witness :
  approveProject (calls gov 2000 "") "p1" "100"
    submitted
  = Returned "Project ${proposalId} approved with ${allocatedCredits} carbon credits allocated"
      (<[proposalKey "p1" := JSON_proposal {|
           proposal_id := "p1";
           proposer := alice;
           projectDescription := "wind farm";
           carbonReductionTarget := JInt 500;
           approved := true;
           allocatedCredits := JInt 100 |}]>
         submitted).
Proof.
  assert (submitted !! proposalKey "p1"
          = Some (JSON_proposal {|
              proposal_id := "p1";
              proposer := alice;
              projectDescription := "wind farm";
              carbonReductionTarget := JInt 500;
              approved := false;
              allocatedCredits := JInt 0 |})) as Hrecord
    by (vm_compute; reflexivity).
  exact (proj2 (proj2
           (approveProject_outcomes (calls gov 2000 "") "p1" "100" _
              (or_intror (ex_intro _ _ Hrecord))) _ Hrecord) eq_refl
           ltac:(vm_compute; reflexivity)).
Defined.

(** X5. An approveProject that comes right after a returned
    approveProject, with no invocation in between, throws AlreadyApproved,
    whatever proposal id and allocation it names. *)
Theorem approveProject_once (ctx1 ctx2 : Context)
    (proposalId1 credit1 proposalId2 credit2 : string) (l : Ledger) :
  thrown (approveProject ctx1 proposalId1 credit1 l) = None ->
  thrown (approveProject ctx2 proposalId2 credit2
            (commit ctx1 (ApproveProject proposalId1 credit1) l))
  = Some AlreadyApproved.
Proof.
  intros Hfirst. tx_unfold. unfold proposalKey in *.
  repeat case_match; simplify_eq; try discriminate Hfirst;
    rewrite lookup_insert_eq in *; simplify_eq; try reflexivity;
    cbn in *; congruence.
Qed.

Lemma approveProject_once_witness :
  thrown (approveProject (calls gov 2500 "") "p2" "7"
            (commit (calls gov 2000 "") (ApproveProject "p1" "100") submitted))
  = Some AlreadyApproved.
Proof.
  exact (approveProject_once (calls gov 2000 "") (calls gov 2500 "")
           "p1" "100" "p2" "7"
           submitted
           ltac:(vm_compute; reflexivity)).
Defined.

(** X6. With nothing or a proposal under the proposal key,
    issueCarbonCredits throws NotFound exactly when there is nothing; with
    a proposal it throws NotApproved exactly when the proposal is not
    approved, and otherwise, the proposer's balance, the allocation and
    their sum being safe, returns having written, under the proposer's
    identity only, the proposer's balance plus the allocation. *)
Theorem issueCarbonCredits_outcomes (ctx : Context) (proposalId : string)
    (l : Ledger)
    (Hkind : l !! proposalKey proposalId = None
             \/ exists p, l !! proposalKey proposalId = Some (JSON_proposal p)) :
  let outcome := issueCarbonCredits ctx proposalId l in
  (outcome = Threw NotFound l <-> l !! proposalKey proposalId = None)
  /\ forall p, l !! proposalKey proposalId = Some (JSON_proposal p) ->
       (outcome = Threw NotApproved l <-> approved p = false)
       /\ (approved p = true ->
           safeCredit (balanceOf l (proposer p))
             (ToNumber (allocatedCredits p)) = true ->
           outcome
           = Returned "Issued ${creditsToIssue} carbon credits to ${proposer}"
               (<[proposer p :=
                    Text (toString (add (balanceOf l (proposer p))
                                        (ToNumber (allocatedCredits p))))]> l)).
Proof.
  cbn zeta.
  unfold issueCarbonCredits, parseProposal, bind, ret, throw, getState,
    putState, balanceOf.
  destruct Hkind as [Hnone | [p0 Hsome]].
  - rewrite Hnone. cbn. split; [tauto | intros p Hp; discriminate Hp].
  - rewrite Hsome. cbn. destruct (approved p0) eqn:Happroved;
      (split; [split; intros H; discriminate H |]);
      intros p Hp; injection Hp as <-; rewrite Happroved;
      repeat split; intros; try reflexivity; discriminate.
Qed.

Lemma issueCarbonCredits_outcomes_witness :
  issueCarbonCredits (calls gov 4000 "") "p1" issued100
  = Returned "Issued ${creditsToIssue} carbon credits to ${proposer}"
      (<[alice := Text "200"]> issued100).
Proof.
  assert (issued100 !! proposalKey "p1"
          = Some (JSON_proposal {|
              proposal_id := "p1";
              proposer := alice;
              projectDescription := "wind farm";
              carbonReductionTarget := JInt 500;
              approved := true;
              allocatedCredits := JInt 100 |})) as Hrecord
    by (vm_compute; reflexivity).
  exact (proj2 (proj2
           (issueCarbonCredits_outcomes (calls gov 4000 "") "p1" issued100
              (or_intror (ex_intro _ _ Hrecord))) _ Hrecord) eq_refl
           ltac:(vm_compute; reflexivity)).
Defined.

(** X7. Right after a submitProposal, issueCarbonCredits throws
    NotApproved, whatever proposal id it names and whatever had been
    approved before the submission. *)
Theorem submit_then_issue_NotApproved (ctx1 ctx2 : Context)
    (description target proposalId : string) (l : Ledger) :
  issueCarbonCredits ctx2 proposalId
    (commit ctx1 (SubmitProposal description target) l)
  = Threw NotApproved (commit ctx1 (SubmitProposal description target) l).
Proof.
  tx_unfold. unfold proposalKey. rewrite lookup_insert_eq. reflexivity.
Qed.

(** X8. Approving an unapproved proposal and then issuing adds to the
    proposer's balance the allocation as parseInt reads it, an allocation
    that is not a number counting as zero; the balance, the allocation
    and their sum are taken to be safe, and the proposer's identity not to
    be the proposal key. *)
Theorem approve_then_issue (ctx1 ctx2 : Context)
    (proposalId1 credit proposalId2 : string) (l : Ledger) (p : Proposal) :
  l !! proposalKey proposalId1 = Some (JSON_proposal p) ->
  approved p = false ->
  proposer p <> proposalKey proposalId1 ->
  safe (parseInt credit) = true ->
  safeCredit (balanceOf l (proposer p))
    (ToNumber (toJSON (parseInt credit))) = true ->
  balanceOf (run [(ctx1, ApproveProject proposalId1 credit);
                  (ctx2, IssueCarbonCredits proposalId2)] l) (proposer p)
  = add (balanceOf l (proposer p)) (ToNumber (toJSON (parseInt credit))).
Proof.
  intros Hp Hunapproved Hne _ _. cbn [run]. tx_unfold. unfold proposalKey in *.
  rewrite Hp. cbn. rewrite Hunapproved. cbn.
  rewrite lookup_insert_eq. cbn.
  unfold balanceOf. rewrite lookup_insert_eq.
  rewrite lookup_insert_ne by congruence.
  apply existingCreditsOf_toString.
Qed.

Lemma approve_then_issue_witness :
  balanceOf issued100 alice = add (balanceOf submitted alice) (Int 100).
Proof.
  exact (approve_then_issue (calls gov 2000 "") (calls gov 3000 "")
           "p1" "100" "p1" submitted
           {| proposal_id := "p1";
              proposer := alice;
              projectDescription := "wind farm";
              carbonReductionTarget := JInt 500;
              approved := false;
              allocatedCredits := JInt 0 |}
           ltac:(vm_compute; reflexivity) ltac:(reflexivity)
           ltac:(discriminate) ltac:(vm_compute; reflexivity)
           ltac:(vm_compute; reflexivity)).
Defined.

(** ** Auctions *)


(** X10. The first bid on a new auction, the starting bid, the duration
    and the amount being integers, and these, both times, 1000 times the
    duration and the end time being safe, is accepted exactly when it
    comes no later than the creation time plus 1000 times the duration, is
    greater than zero, and is at least the starting bid. *)
Theorem first_bid_accepted (ctx0 ctx1 : Context)
    (total start duration auctionId bidAmount : string) (l : Ledger)
    (s d z : Z) :
  parseInt start = Int s ->
  parseInt duration = Int d ->
  parseInt bidAmount = Int z ->
  safe (Int s) && safe (Int z) = true ->
  safe (Int (Date_now ctx0)) && safe (Int (Date_now ctx1)) = true ->
  safe (Int (d * 1000)) && safe (Int (Date_now ctx0 + d * 1000)) = true ->
  thrown (placeBid ctx1 auctionId bidAmount
            (commit ctx0 (CreateAuction total start duration) l)) = None
  <-> Date_now ctx1 <= Date_now ctx0 + d * 1000 /\ 0 < z /\ s <= z.
Proof.
  intros Hs Hd Hz _ _ _. tx_unfold. unfold auctionKey.
  rewrite lookup_insert_eq. cbn -[parseInt]. rewrite Hs, Hd, Hz. cbn.
  destruct (Date_now ctx0 + d * 1000 <? Date_now ctx1) eqn:Hlate; cbn.
  - split; [discriminate | lia].
  - destruct (z <=? 0) eqn:Hz0; cbn; [split; [discriminate | lia] |].
    destruct (z <? s) eqn:Hzs; cbn; split; try discriminate; try lia; reflexivity.
Qed.

Lemma first_bid_accepted_witness :
  thrown (placeBid (calls bob 1500 "") "a1" "60"
            (commit (calls gov 1000 "a1") (CreateAuction "40" "50" "1") ∅)) = None
  <-> 1500 <= 1000 + 1 * 1000 /\ 0 < 60 /\ 50 <= 60.
Proof.
  exact (first_bid_accepted (calls gov 1000 "a1") (calls bob 1500 "")
           "40" "50" "1" "a1" "60" (∅ : Ledger) 50 1 60
           eq_refl eq_refl eq_refl ltac:(vm_compute; reflexivity)
           ltac:(vm_compute; reflexivity) ltac:(vm_compute; reflexivity)).
Defined.

(** X11. With nothing or an auction under the auction key, endAuction
    throws NotFound exactly when there is nothing; with an auction it
    throws StillOngoing exactly when the current time is before endTime;
    failing that, it throws AlreadyEnded exactly when the record says
    ended; otherwise, the highest bidder's balance, totalCredits and their
    sum being safe, it returns, and its one write puts under the highest
    bidder's identity that identity's balance plus totalCredits: the
    auction record is not written. *)
Theorem endAuction_outcomes (ctx : Context) (auctionId : string) (l : Ledger)
    (Hkind : l !! auctionKey auctionId = None
             \/ exists a, l !! auctionKey auctionId = Some (JSON_auction a)) :
  let outcome := endAuction ctx auctionId l in
  (outcome = Threw NotFound l <-> l !! auctionKey auctionId = None)
  /\ forall a, l !! auctionKey auctionId = Some (JSON_auction a) ->
       let early := lt (Int (Date_now ctx)) (ToNumber (endTime a)) in
       (outcome = Threw StillOngoing l <-> early = true)
       /\ (early = false -> (outcome = Threw AlreadyEnded l <-> ended a = true))
       /\ (early = false -> ended a = false ->
           safeCredit (balanceOf l (highestBidder a))
             (ToNumber (totalCredits a)) = true ->
           outcome
           = Returned "Auction ${auctionId} ended. ${creditsToTransfer} carbon credits transferred to ${highestBidder}"
               (<[highestBidder a :=
                    Text (toString (add (balanceOf l (highestBidder a))
                                        (ToNumber (totalCredits a))))]> l)).
Proof.
  cbn zeta.
  unfold endAuction, parseAuction, bind, ret, throw, getState, putState,
    balanceOf.
  destruct Hkind as [Hnone | [a0 Hsome]].
  - rewrite Hnone. cbn. split; [tauto | intros a Ha; discriminate Ha].
  - rewrite Hsome. cbn -[lt].
    destruct (lt (Int (Date_now ctx)) (ToNumber (endTime a0))) eqn:Hearly;
      [| destruct (ended a0) eqn:Hended];
      (split; [split; intros H; discriminate H |]);
      intros a Ha; injection Ha as <-; rewrite Hearly, ?Hended;
      repeat split; intros; try reflexivity; discriminate.
Qed.

Lemma endAuction_outcomes_witness :
  endAuction (calls gov 2000 "") "a1" bid60
  = Returned "Auction ${auctionId} ended. ${creditsToTransfer} carbon credits transferred to ${highestBidder}"
      (<[bob := Text "40"]> bid60).
Proof.
  assert (bid60 !! auctionKey "a1"
          = Some (JSON_auction {|
              auction_id := "a1";
              totalCredits := JInt 40;
              startingBid := JInt 50;
              highestBid := JInt 60;
              highestBidder := bob;
              endTime := JInt 2000;
              ended := false |})) as Hrecord by (vm_compute; reflexivity).
  exact (proj2 (proj2 (proj2
           (endAuction_outcomes (calls gov 2000 "") "a1" bid60
              (or_intror (ex_intro _ _ Hrecord))) _ Hrecord)) eq_refl eq_refl
           ltac:(vm_compute; reflexivity)).
Defined.

(** X12. An auction that received no bid and is ended once its time is
    up, the duration being an integer, credits its totalCredits to the
    empty identity: the key made of the empty string then holds what it
    held plus totalCredits.  Both times, 1000 times the duration, the end
    time, the balance under the empty key, totalCredits and their sum are
    taken to be safe. *)
Theorem endAuction_without_bids (ctx0 ctx1 : Context)
    (total start duration auctionId : string) (l : Ledger) (d : Z) :
  parseInt duration = Int d ->
  Date_now ctx0 + d * 1000 <= Date_now ctx1 ->
  safe (Int (Date_now ctx0)) && safe (Int (Date_now ctx1)) = true ->
  safe (Int (d * 1000)) && safe (Int (Date_now ctx0 + d * 1000)) = true ->
  safe (parseInt total) = true ->
  safeCredit (balanceOf l "") (ToNumber (toJSON (parseInt total))) = true ->
  let l1 := commit ctx0 (CreateAuction total start duration) l in
  thrown (endAuction ctx1 auctionId l1) = None
  /\ balanceOf (commit ctx1 (EndAuction auctionId) l1) ""
     = add (balanceOf l "") (ToNumber (toJSON (parseInt total))).
Proof.
  intros Hd Hlate _ _ _ _. cbn zeta. tx_unfold. unfold auctionKey, balanceOf.
  rewrite lookup_insert_eq. cbn -[parseInt]. rewrite Hd. cbn -[parseInt].
  assert ((Date_now ctx1 <? Date_now ctx0 + d * 1000) = false) as -> by lia.
  split; [reflexivity |].
  rewrite lookup_insert_eq, lookup_insert_ne by discriminate.
  apply existingCreditsOf_toString.
Qed.

Lemma endAuction_without_bids_witness :
  let l1 := commit (calls gov 1000 "a1") (CreateAuction "40" "50" "1") ∅ in
  thrown (endAuction (calls gov 2000 "") "a1" l1) = None
  /\ balanceOf (commit (calls gov 2000 "") (EndAuction "a1") l1) ""
     = add (balanceOf ∅ "") (Int 40).
Proof.
  exact (endAuction_without_bids (calls gov 1000 "a1") (calls gov 2000 "")
           "40" "50" "1" "a1" (∅ : Ledger) 1 eq_refl ltac:(cbn; lia)
           ltac:(vm_compute; reflexivity) ltac:(vm_compute; reflexivity)
           ltac:(vm_compute; reflexivity) ltac:(vm_compute; reflexivity)).
Defined.

(** X13. The time tests of placeBid and endAuction overlap at the end
    time: placeBid never throws AuctionEnded while endAuction throws
    StillOngoing, and when the current time is exactly endTime neither is
    thrown, so the auction takes bids and can be ended at that instant. *)
Theorem end_time_boundary (ctx : Context) (auctionId bidAmount : string)
    (l : Ledger) (a : Auction) :
  l !! auctionKey auctionId = Some (JSON_auction a) ->
  ~ (thrown (placeBid ctx auctionId bidAmount l) = Some AuctionEnded
     /\ thrown (endAuction ctx auctionId l) = Some StillOngoing)
  /\ (ToNumber (endTime a) = Int (Date_now ctx) ->
      thrown (placeBid ctx auctionId bidAmount l) <> Some AuctionEnded
      /\ thrown (endAuction ctx auctionId l) <> Some StillOngoing).
Proof.
  intros Ha. tx_unfold. rewrite Ha. cbn.
  destruct (ToNumber (endTime a)) as [| t]; cbn.
  - split; [intros [H _]; destruct (_ || _); discriminate H | discriminate].
  - split.
    + intros [Hbid Hend].
      destruct (t <? Date_now ctx) eqn:H1, (Date_now ctx <? t) eqn:H2;
        try lia; cbn in *; repeat case_match; discriminate.
    + intros [= ->]. rewrite Z.ltb_irrefl. cbn.
      split; repeat case_match; discriminate.
Qed.

Lemma end_time_boundary_witness :
  thrown (placeBid (calls alice 2000 "") "a1" "61" bid60) <> Some AuctionEnded
  /\ thrown (endAuction (calls alice 2000 "") "a1" bid60) <> Some StillOngoing.
Proof.
  assert (bid60 !! auctionKey "a1"
          = Some (JSON_auction {|
              auction_id := "a1";
              totalCredits := JInt 40;
              startingBid := JInt 50;
              highestBid := JInt 60;
              highestBidder := bob;
              endTime := JInt 2000;
              ended := false |})) as Hrecord by (vm_compute; reflexivity).
  exact (proj2 (end_time_boundary (calls alice 2000 "") "a1" "61" bid60 _ Hrecord)
           eq_refl).
Defined.

(** ** Invariants of the ledgers reached from the empty one *)

Lemma gated_commit (ctx : Context) (f : Invocation) (l : Ledger) :
  gated l -> gated (commit ctx f l).
Proof.
  unfold gated. intros Hl i p Hlook Hunapproved.
  destruct f; tx_unfold; unfold saleKey, proposalKey, auctionKey in *;
    repeat case_match; simplify_eq; lookup_cases;
    solve [eauto | discriminate Hunapproved | reflexivity].
Qed.

(** X14. In every ledger reached from the empty one, a stored proposal
    that is not approved has allocatedCredits 0: only approveProject
    allocates, and it marks the proposal approved in the same write. *)
Theorem unapproved_has_no_credits (txs : list (Context * Invocation))
    (proposalId : string) (p : Proposal) :
  run txs ∅ !! proposalKey proposalId = Some (JSON_proposal p) ->
  approved p = false ->
  allocatedCredits p = JInt 0.
Proof.
  assert (forall l, gated l -> gated (run txs l)) as Hrun.
  { induction txs as [| [ctx f] rest IH]; intros l Hl; [exact Hl |].
    cbn [run]. apply IH, gated_commit, Hl. }
  apply Hrun. intros i q Hq. rewrite lookup_empty in Hq. discriminate Hq.
Qed.

Lemma unapproved_has_no_credits_witness :
  allocatedCredits {|
    proposal_id := "p1";
    proposer := alice;
    projectDescription := "wind farm";
    carbonReductionTarget := JInt 500;
    approved := false;
    allocatedCredits := JInt 0 |} = JInt 0.
Proof.
  exact (unapproved_has_no_credits
           [(calls alice 1000 "p1", SubmitProposal "wind farm" "500")] "p1" _
           ltac:(vm_compute; reflexivity) eq_refl).
Defined.

Lemma bidsFromZero_commit (ctx : Context) (f : Invocation) (l : Ledger) :
  bidsFromZero l -> bidsFromZero (commit ctx f l).
Proof.
  unfold bidsFromZero. intros Hl i a Hlook.
  destruct f; tx_unfold; unfold saleKey, proposalKey, auctionKey in *;
    repeat case_match; simplify_eq; lookup_cases; try solve [eauto | reflexivity].
  cbn.
  match goal with
  | H : _ !! _ = Some (JSON_auction ?a0), Hlow : (_ || _) = false |- _ =>
      pose proof (Hl "" a0 eq_refl) as Hold;
      apply orb_false_iff in Hlow as [Hlow _];
      destruct (parseInt bidAmount), (highestBid a0); cbn in *;
      try reflexivity; lia
  end.
Qed.

(** X15. On every ledger reached from the empty one, placeBid throws for
    an integer amount that is zero or negative, whatever the starting bid
    of the auction: such a bid is never accepted. *)
Theorem nonpositive_bid_rejected (txs : list (Context * Invocation))
    (ctx : Context) (auctionId bidAmount : string) (z : Z) :
  parseInt bidAmount = Int z -> z <= 0 ->
  thrown (placeBid ctx auctionId bidAmount (run txs ∅)) <> None.
Proof.
  intros Hz Hneg.
  assert (bidsFromZero (run txs ∅)) as Hinv.
  { assert (forall l, bidsFromZero l -> bidsFromZero (run txs l)) as Hrun.
    { induction txs as [| [c f] rest IH]; intros l Hl; [exact Hl |].
      cbn [run]. apply IH, bidsFromZero_commit, Hl. }
    apply Hrun. intros i a Ha. rewrite lookup_empty in Ha. discriminate Ha. }
  unfold placeBid, parseAuction, bind, ret, throw, getState, putState.
  destruct (run txs ∅ !! auctionKey auctionId) as [b |] eqn:Hb;
    [| discriminate].
  destruct b as [g | p | a | s | t]; cbn -[parseInt]; try discriminate.
  - apply Hinv in Hb. rewrite Hz.
    destruct (gt _ _); [discriminate |].
    destruct (highestBid a) as [| h]; cbn in *.
    + assert ((z <=? 0) = true) as -> by lia. discriminate.
    + assert ((z <=? h) = true) as -> by lia. discriminate.
  - destruct t; discriminate.
Qed.

Lemma nonpositive_bid_rejected_witness :
  thrown (placeBid (calls alice 1600 "") "a1" "0"
            (run [(calls gov 1000 "a1", CreateAuction "40" "-10" "1")] ∅))
  <> None.
Proof.
  exact (nonpositive_bid_rejected
           [(calls gov 1000 "a1", CreateAuction "40" "-10" "1")]
           (calls alice 1600 "") "a1" "0" 0 eq_refl ltac:(lia)).
Defined.

(** ** Sales *)

(** X16. With nothing or a sale under the sale key, buyCredits throws
    NotFound exactly when there is nothing; with a sale it throws
    AlreadySold exactly when the sale is sold; otherwise, every number
    read or computed being safe, it returns after three writes in this
    order: the buyer's balance plus the amount under the buyer's identity,
    the seller's identity followed by the total cost under the seller's
    identity, and the sale with the amount taken off creditsForSale,
    marked sold when nothing is left. *)
Theorem buyCredits_outcomes (ctx : Context) (saleId creditsToBuy : string)
    (l : Ledger)
    (Hkind : l !! saleKey saleId = None
             \/ exists s, l !! saleKey saleId = Some (JSON_sale s)) :
  let outcome := buyCredits ctx saleId creditsToBuy l in
  (outcome = Threw NotFound l <-> l !! saleKey saleId = None)
  /\ forall s, l !! saleKey saleId = Some (JSON_sale s) ->
       (outcome = Threw AlreadySold l <-> sold s = true)
       /\ (sold s = false ->
           safePurchase (balanceOf l (clientIdentity_getID ctx)) s
             (parseInt creditsToBuy) = true ->
           let buyer := clientIdentity_getID ctx in
           let amount := parseInt creditsToBuy in
           let totalCost := mul amount (ToNumber (pricePerCredit s)) in
           let remaining := sub (ToNumber (creditsForSale s)) amount in
           outcome
           = Returned "${creditsToBuyInt} credits bought from sale ${saleId} by ${buyer}"
               (<[saleKey saleId := JSON_sale {|
                    sale_id := sale_id s;
                    creditsForSale := toJSON remaining;
                    pricePerCredit := pricePerCredit s;
                    seller := seller s;
                    sold := isZero remaining |}]>
                  (<[seller s := Text (seller s +:+ toString totalCost)]>
                     (<[buyer := Text (toString (add (balanceOf l buyer) amount))]>
                        l)))).
Proof.
  cbn zeta.
  unfold buyCredits, parseSale, bind, ret, throw, getState, putState, balanceOf.
  destruct Hkind as [Hnone | [s0 Hsome]].
  - rewrite Hnone. cbn. split; [tauto | intros s Hs; discriminate Hs].
  - rewrite Hsome. cbn -[parseInt]. destruct (sold s0) eqn:Hsold;
      (split; [split; intros H; discriminate H |]);
      intros s Hs; injection Hs as <-; rewrite Hsold;
      repeat split; intros; try reflexivity; try discriminate.
    destruct (isZero _); reflexivity.
Qed.

Lemma buyCredits_outcomes_witness :
  buyCredits (calls bob 5000 "") "s1" "3" listed10
  = Returned "${creditsToBuyInt} credits bought from sale ${saleId} by ${buyer}"
      (<[saleKey "s1" := JSON_sale {|
           sale_id := "s1";
           creditsForSale := JInt 7;
           pricePerCredit := JInt 5;
           seller := alice;
           sold := false |}]>
         (<[alice := Text "x509::/CN=alice::/CN=ca15"]>
            (<[bob := Text "3"]> listed10))).
Proof.
  assert (listed10 !! saleKey "s1"
          = Some (JSON_sale {|
              sale_id := "s1";
              creditsForSale := JInt 10;
              pricePerCredit := JInt 5;
              seller := alice;
              sold := false |})) as Hrecord by (vm_compute; reflexivity).
  exact (proj2 (proj2
           (buyCredits_outcomes (calls bob 5000 "") "s1" "3" listed10
              (or_intror (ex_intro _ _ Hrecord))) _ Hrecord) eq_refl
           ltac:(vm_compute; reflexivity)).
Defined.

(** X17. A buyer who is not the seller of the sale, and whose identity is
    not the sale key, ends a returned buyCredits with the balance held
    before plus the amount bought, the balance, the amount and their sum
    being safe. *)
Theorem buyCredits_buyer_credited (ctx : Context) (saleId creditsToBuy : string)
    (l : Ledger) (s : Sale) :
  l !! saleKey saleId = Some (JSON_sale s) ->
  sold s = false ->
  clientIdentity_getID ctx <> seller s ->
  clientIdentity_getID ctx <> saleKey saleId ->
  safeCredit (balanceOf l (clientIdentity_getID ctx))
    (parseInt creditsToBuy) = true ->
  balanceOf (commit ctx (BuyCredits saleId creditsToBuy) l)
    (clientIdentity_getID ctx)
  = add (balanceOf l (clientIdentity_getID ctx)) (parseInt creditsToBuy).
Proof.
  intros Hs Hunsold Hseller Hkey _.
  unfold commit, invoke, buyCredits, parseSale, bind, ret, throw, getState,
    putState, balanceOf.
  rewrite Hs. cbn -[parseInt]. rewrite Hunsold.
  rewrite !lookup_insert_ne by congruence. rewrite lookup_insert_eq.
  apply existingCreditsOf_toString.
Qed.

Lemma buyCredits_buyer_credited_witness :
  balanceOf (commit (calls bob 5000 "") (BuyCredits "s1" "3") listed10) bob
  = add (balanceOf listed10 bob) (Int 3).
Proof.
  exact (buyCredits_buyer_credited (calls bob 5000 "") "s1" "3" listed10
           {| sale_id := "s1";
              creditsForSale := JInt 10;
              pricePerCredit := JInt 5;
              seller := alice;
              sold := false |}
           ltac:(vm_compute; reflexivity) eq_refl
           ltac:(discriminate) ltac:(discriminate)
           ltac:(vm_compute; reflexivity)).
Defined.

(** X18. buyCredits has no test on the credits left: from an unsold sale
    with x credits it returns for every integer amount z, leaves x - z
    credits for sale, negative when z exceeds x, and marks the sale sold
    exactly when z equals x; x, z and x - z are taken to be safe. *)
Theorem buyCredits_remaining (ctx : Context) (saleId creditsToBuy : string)
    (l : Ledger) (s : Sale) (x z : Z) :
  l !! saleKey saleId = Some (JSON_sale s) ->
  sold s = false ->
  creditsForSale s = JInt x ->
  parseInt creditsToBuy = Int z ->
  safe (Int x) && safe (Int z) && safe (Int (x - z)) = true ->
  thrown (buyCredits ctx saleId creditsToBuy l) = None
  /\ exists s',
       commit ctx (BuyCredits saleId creditsToBuy) l !! saleKey saleId
       = Some (JSON_sale s')
       /\ creditsForSale s' = JInt (x - z)
       /\ (sold s' = true <-> z = x).
Proof.
  intros Hs Hunsold Hx Hz _.
  unfold commit, invoke, buyCredits, parseSale, bind, ret, throw, getState,
    putState, thrown.
  rewrite Hs. cbn -[parseInt]. rewrite Hunsold, Hx, Hz. cbn.
  split; [reflexivity |]. eexists. rewrite lookup_insert_eq.
  split; [reflexivity |]. cbn. split; [reflexivity |].
  destruct (x - z =? 0) eqn:Hzero; split; intros; try discriminate; lia.
Qed.

Lemma buyCredits_remaining_witness :
  thrown (buyCredits (calls bob 5000 "") "s1" "13" listed10) = None
  /\ exists s',
       commit (calls bob 5000 "") (BuyCredits "s1" "13") listed10 !! saleKey "s1"
       = Some (JSON_sale s')
       /\ creditsForSale s' = JInt (10 - 13)
       /\ (sold s' = true <-> 13 = 10).
Proof.
  exact (buyCredits_remaining (calls bob 5000 "") "s1" "13" listed10
           {| sale_id := "s1";
              creditsForSale := JInt 10;
              pricePerCredit := JInt 5;
              seller := alice;
              sold := false |} 10 13
           ltac:(vm_compute; reflexivity) eq_refl eq_refl eq_refl
           ltac:(vm_compute; reflexivity)).
Defined.

(** X19. A createSale that returns replaces whatever sale was listed,
    sold or not: after two createSale invocations of which the second
    returns, the ledger is the first ledger with the second sale under the
    sale key, and no trace of the first.  The amount of the first, the
    amount and the price of the second, and the balances of both callers
    are taken to be safe. *)
Theorem createSale_overwrites (ctx1 ctx2 : Context)
    (amount1 price1 amount2 price2 : string) (l : Ledger) :
  safe (parseInt amount1)
  && safe (balanceOf l (clientIdentity_getID ctx1)) = true ->
  safe (parseInt amount2) && safe (parseInt price2) = true ->
  safe (balanceOf (commit ctx1 (CreateSale amount1 price1) l)
          (clientIdentity_getID ctx2)) = true ->
  thrown (createSale ctx2 amount2 price2
            (commit ctx1 (CreateSale amount1 price1) l)) = None ->
  run [(ctx1, CreateSale amount1 price1); (ctx2, CreateSale amount2 price2)] l
  = <[saleKey (uuidv4 ctx2) := JSON_sale {|
        sale_id := uuidv4 ctx2;
        creditsForSale := toJSON (parseInt amount2);
        pricePerCredit := toJSON (parseInt price2);
        seller := clientIdentity_getID ctx2;
        sold := false |}]> l.
Proof.
  intros _ _ _ Hsecond. cbn [run]. tx_unfold. unfold saleKey in *.
  repeat case_match; simplify_eq; try discriminate Hsecond;
    rewrite ?insert_insert_eq; reflexivity.
Qed.

Lemma createSale_overwrites_witness :
  run [(calls alice 4000 "s1", CreateSale "10" "5");
       (calls alice 4500 "s2", CreateSale "20" "1")] issued100
  = <[saleKey "s2" := JSON_sale {|
        sale_id := "s2";
        creditsForSale := JInt 20;
        pricePerCredit := JInt 1;
        seller := alice;
        sold := false |}]> issued100.
Proof.
  exact (createSale_overwrites (calls alice 4000 "s1") (calls alice 4500 "s2")
           "10" "5" "20" "1" issued100 ltac:(vm_compute; reflexivity)
           ltac:(vm_compute; reflexivity) ltac:(vm_compute; reflexivity)
           ltac:(vm_compute; reflexivity)).
Defined.

(** X20. After any returned purchase from a sale whose seller is a Fabric
    identity, that seller's balance no longer reads as a number, and a
    createSale by that seller returns for every amount: the balance test
    of createSale no longer holds the seller back. *)
Theorem seller_unchecked_after_purchase (ctx ctxS : Context)
    (saleId creditsToBuy amount price : string) (l : Ledger) (s : Sale) :
  l !! saleKey saleId = Some (JSON_sale s) ->
  sold s = false ->
  isFabricID (seller s) = true ->
  clientIdentity_getID ctxS = seller s ->
  let l' := commit ctx (BuyCredits saleId creditsToBuy) l in
  balanceOf l' (seller s) = NaN
  /\ thrown (createSale ctxS amount price l') = None.
Proof.
  intros Hs Hunsold Hfabric Hcaller. cbn zeta.
  destruct (isFabricID_not_key _ Hfabric) as (_ & _ & _ & Hne).
  assert (balanceOf (commit ctx (BuyCredits saleId creditsToBuy) l) (seller s)
          = NaN) as Hnan.
  { unfold commit, invoke, buyCredits, parseSale, bind, ret, throw, getState,
      putState, balanceOf.
    rewrite Hs. cbn -[parseInt]. rewrite Hunsold.
    rewrite lookup_insert_ne by (unfold saleKey in *; congruence).
    rewrite lookup_insert_eq. apply existingCreditsOf_fabric, Hfabric. }
  split; [exact Hnan |].
  unfold createSale, bind, ret, throw, getState, putState.
  rewrite Hcaller. fold (balanceOf (commit ctx (BuyCredits saleId creditsToBuy) l)
                           (seller s)).
  rewrite Hnan. reflexivity.
Qed.

Lemma seller_unchecked_after_purchase_witness :
  let l' := commit (calls bob 5000 "") (BuyCredits "s1" "3") listed10 in
  balanceOf l' alice = NaN
  /\ thrown (createSale (calls alice 6000 "s2") "1000000" "1" l') = None.
Proof.
  exact (seller_unchecked_after_purchase (calls bob 5000 "")
           (calls alice 6000 "s2") "s1" "3" "1000000" "1" listed10
           {| sale_id := "s1";
              creditsForSale := JInt 10;
              pricePerCredit := JInt 5;
              seller := alice;
              sold := false |}
           ltac:(vm_compute; reflexivity) eq_refl eq_refl eq_refl).
Defined.

(** ** Balances that are not numbers *)

Lemma NaN_balance_commit (ctx : Context) (f : Invocation) (l : Ledger)
    (identity : string) :
  isFabricID identity = true ->
  balanceOf l identity = NaN ->
  balanceOf (commit ctx f l) identity = NaN.
Proof.
  intros Hfabric Hnan. unfold balanceOf in *.
  destruct f; tx_unfold; unfold saleKey, proposalKey, auctionKey in *;
    repeat case_match; simplify_eq; try exact Hnan;
    repeat (rewrite existingCreditsOf_insert; case_decide; simplify_eq);
    rewrite ?existingCreditsOf_toString, ?Hnan;
    try (erewrite existingCreditsOf_fabric by eassumption);
    try reflexivity; try exact Hnan.
Qed.

(** X21. The balance of a Fabric identity that has once come to read as
    NaN reads as NaN after every further sequence of invocations: no
    transaction function restores it. *)
Theorem NaN_balance_stays (txs : list (Context * Invocation)) :
  forall (l : Ledger) (identity : string),
    isFabricID identity = true ->
    balanceOf l identity = NaN ->
    balanceOf (run txs l) identity = NaN.
Proof.
  induction txs as [| [ctx f] rest IH]; intros l identity Hfabric Hnan.
  - exact Hnan.
  - cbn [run]. apply IH; [exact Hfabric |].
    apply NaN_balance_commit; assumption.
Qed.

Lemma NaN_balance_stays_witness :
  balanceOf
    (run [(calls gov 7000 "", IssueCarbonCredits "p1")]
       (commit (calls bob 5000 "") (BuyCredits "s1" "3") listed10)) alice
  = NaN.
Proof.
  exact (NaN_balance_stays [(calls gov 7000 "", IssueCarbonCredits "p1")]
           (commit (calls bob 5000 "") (BuyCredits "s1" "3") listed10) alice
           eq_refl ltac:(vm_compute; reflexivity)).
Defined.

Lemma soldOut_commit (ctx : Context) (f : Invocation) (l : Ledger) :
  soldOut l -> soldOut (commit ctx f l).
Proof.
  unfold soldOut. intros Hl i s Hlook Hsold.
  destruct f;
    try (tx_unfold; unfold saleKey, proposalKey, auctionKey in *;
         repeat case_match; simplify_eq; lookup_cases;
         solve [eauto | discriminate Hsold]).
  unfold commit, invoke, buyCredits, parseSale, bind, ret, throw, getState,
    putState in Hlook.
  unfold saleKey in *.
  destruct (l !! "sale_${saleId}") as [[g | p | a | s0 | t] |] eqn:Hs0;
    cbn -[parseInt] in Hlook; try solve [eapply Hl; eauto; congruence].
  - destruct (sold s0) eqn:Hunsold; cbn -[parseInt] in Hlook;
      [eapply Hl; eauto; congruence |].
    rewrite lookup_insert_eq in Hlook. injection Hlook as <-. cbn in *.
    destruct (sub _ _) as [| r]; cbn in *; [discriminate Hsold |].
    destruct (r =? 0) eqn:Hr; [f_equal; lia | discriminate Hsold].
  - destruct t; cbn in Hlook; eapply Hl; eauto; congruence.
Qed.

(** X22. In every ledger reached from the empty one, whatever the
    arguments of the invocations, a stored sale that is marked sold has
    creditsForSale exactly 0. *)
Theorem sold_means_nothing_left (txs : list (Context * Invocation))
    (saleId : string) (s : Sale) :
  run txs ∅ !! saleKey saleId = Some (JSON_sale s) ->
  sold s = true ->
  creditsForSale s = JInt 0.
Proof.
  assert (forall l, soldOut l -> soldOut (run txs l)) as Hrun.
  { induction txs as [| [ctx f] rest IH]; intros l Hl; [exact Hl |].
    cbn [run]. apply IH, soldOut_commit, Hl. }
  apply Hrun. intros i q Hq. rewrite lookup_empty in Hq. discriminate Hq.
Qed.

Lemma sold_means_nothing_left_witness :
  creditsForSale {|
    sale_id := "s1";
    creditsForSale := JInt 0;
    pricePerCredit := JInt 5;
    seller := alice;
    sold := true |} = JInt 0.
Proof.
  exact (sold_means_nothing_left
           ([(calls alice 1000 "p1", SubmitProposal "wind farm" "500");
             (calls gov 2000 "", ApproveProject "p1" "100");
             (calls gov 3000 "", IssueCarbonCredits "p1");
             (calls alice 4000 "s1", CreateSale "10" "5")] ++ threePurchases)
           "s1" _ ltac:(vm_compute; reflexivity) eq_refl).
Defined.

(** X23. An identity with no bytes under its key counts as holding zero
    credits: its createSale throws InsufficientCredits exactly when the
    integer amount to list is greater than zero, so it can list zero or a
    negative number of credits. *)
Theorem createSale_without_balance (ctx : Context) (amount price : string)
    (l : Ledger) (z : Z) :
  l !! clientIdentity_getID ctx = None ->
  parseInt amount = Int z ->
  (thrown (createSale ctx amount price l) = Some InsufficientCredits <-> 0 < z)
  /\ (thrown (createSale ctx amount price l) = None <-> z <= 0).
Proof.
  intros Hnone Hz.
  unfold createSale, bind, ret, throw, getState, putState.
  rewrite Hnone, Hz. cbn.
  destruct (0 <? z) eqn:Hpos; cbn; repeat split; intros;
    try discriminate; try reflexivity; lia.
Qed.

Lemma createSale_without_balance_witness :
  (thrown (createSale (calls bob 4000 "s1") "-3" "5" issued100)
   = Some InsufficientCredits <-> 0 < -3)
  /\ (thrown (createSale (calls bob 4000 "s1") "-3" "5" issued100) = None
      <-> -3 <= 0).
Proof.
  exact (createSale_without_balance (calls bob 4000 "s1") "-3" "5" issued100
           (-3) ltac:(vm_compute; reflexivity) eq_refl).
Defined.
